(** * Ingredient normalisation and recipe index: a shallow embedding

    This development embeds the text normaliser ([api/utils/text_norm.py])
    and the recipe index ([api/recipes/indexer.py]) and states their
    properties.

    Conventions.
    - A Python [str] is a list of characters; a character is one of the code
      points U+0000..U+00FF, and the character classes below are Python's
      own on that range ([str.isspace], [str.lower], and the classes [\w],
      [\s], [\d] of [re] on [str] patterns).
    - A Python [int] is a [Z].
    - The WordNet lemmatiser ([nltk]) and the BM25 scorer ([rank_bm25]) are
      third-party code: they are section variables, and what is assumed of
      them is stated as section hypotheses. *)

From Stdlib Require Import ZArith NArith Ascii String List Bool Lia Sorted.
From stdpp Require Import base option list gmap strings.

Local Open Scope list_scope.

(** ** Characters *)

Module PyChar.

Definition ord (c : ascii) : N := N_of_ascii c.

Definition in_range (lo hi : N) (c : ascii) : bool :=
  ((lo <=? ord c) && (ord c <=? hi))%N.

Definition code_is (n : N) (c : ascii) : bool := (ord c =? n)%N.

(** [str.isspace], which is also [\s] and what [strip] and [split] remove. *)
Definition isspace (c : ascii) : bool :=
  in_range 9 13 c || in_range 28 32 c || code_is 133 c || code_is 160 c.

(** [\d]. *)
Definition isdigit (c : ascii) : bool := in_range 48 57 c.

(** [\w]: alphanumeric or underscore. *)
Definition isword (c : ascii) : bool :=
  in_range 48 57 c || in_range 65 90 c || code_is 95 c || in_range 97 122 c
  || code_is 170 c || in_range 178 179 c || code_is 181 c || in_range 185 186 c
  || in_range 188 190 c || in_range 192 214 c || in_range 216 246 c
  || in_range 248 255 c.

Definition is_hyphen (c : ascii) : bool := code_is 45 c.

(** [str.lower] on one character. *)
Definition lower (c : ascii) : ascii :=
  if in_range 65 90 c || in_range 192 214 c || in_range 216 222 c
  then ascii_of_N (ord c + 32)
  else c.

(** The class [[^\w\s-]] of [normalize]'s punctuation pattern, negated:
    the characters the substitution leaves alone. *)
Definition kept (c : ascii) : bool := isword c || isspace c || is_hyphen c.

(** A character that [normalize] leaves as it is inside a word: a
    lowercase word character or a hyphen. *)
Definition canonical (c : ascii) : bool :=
  negb (isspace c) && kept c && Ascii.eqb (lower c) c.

End PyChar.

(** ** Strings *)

Abbreviation str := (list ascii).

(** A literal. *)
Definition py (s : string) : str := list_ascii_of_string s.

Module PyStr.
Import PyChar.

Definition space : ascii := " "%char.
Definition comma : ascii := ","%char.

Fixpoint drop_while (p : ascii -> bool) (s : str) : str :=
  match s with
  | [] => []
  | c :: s' => if p c then drop_while p s' else s
  end.

Fixpoint count_while (p : ascii -> bool) (s : str) : nat :=
  match s with
  | [] => 0
  | c :: s' => if p c then S (count_while p s') else 0
  end.

(** [s.lower()] *)
Definition lower (s : str) : str := map PyChar.lower s.

(** [s.strip()] *)
Definition lstrip (s : str) : str := drop_while isspace s.
Definition rstrip (s : str) : str := rev (drop_while isspace (rev s)).
Definition strip (s : str) : str := rstrip (lstrip s).

(** [s.split()]: the maximal runs of non-whitespace characters. *)
Fixpoint split (s : str) : list str :=
  match s with
  | [] => []
  | c :: s' =>
      if isspace c then split s'
      else match s' with
           | [] => [[c]]
           | d :: _ =>
               if isspace d then [c] :: split s'
               else match split s' with
                    | w :: ws => (c :: w) :: ws
                    | [] => [[c]]
                    end
           end
  end.

(** [sep.join(ws)] *)
Fixpoint join (sep : str) (ws : list str) : str :=
  match ws with
  | [] => []
  | [w] => w
  | w :: ws' => w ++ sep ++ join sep ws'
  end.

(** A word as [split] produces it: not empty, no whitespace. *)
Definition is_word (w : str) : Prop :=
  w <> [] /\ Forall (fun c => isspace c = false) w.

(** A canonical word: not empty, canonical characters only; and the test
    for it. *)
Definition canonical_word (w : str) : Prop :=
  w <> [] /\ Forall (fun c => canonical c = true) w.

Definition canonical_wordb (w : str) : bool :=
  match w with
  | [] => false
  | _ :: _ => forallb canonical w
  end.

(** [s.split(sep)] for a one-character separator: never empty, keeps
    empty fields. *)
Fixpoint split_on (sep : ascii) (s : str) : list str :=
  match s with
  | [] => [[]]
  | c :: s' =>
      if Ascii.eqb c sep then [] :: split_on sep s'
      else match split_on sep s' with
           | w :: ws => (c :: w) :: ws
           | [] => [[c]]
           end
  end.

(** [re.sub(pattern, '', s)] for a pattern that never matches the empty
    string: [m t] is the length of the match that starts at the head of
    [t], if there is one.  The scan goes left to right; a match is
    deleted and the scan resumes behind it. *)
Fixpoint sub_delete (m : str -> option nat) (skip : nat) (s : str) : str :=
  match s with
  | [] => []
  | c :: s' =>
      match skip with
      | S k => sub_delete m k s'
      | O =>
          match m s with
          | Some (S k) => sub_delete m k s'
          | _ => c :: sub_delete m 0 s'
          end
      end
  end.

(** [re.sub(r'[^\w\s-]', ' ', s)] *)
Definition sub_punct (s : str) : str :=
  map (fun c => if kept c then c else space) s.

(** The first alternative of a list that is a prefix of [s]: its length. *)
Fixpoint str_prefix (u s : str) : bool :=
  match u, s with
  | [], _ => true
  | a :: u', b :: s' => Ascii.eqb a b && str_prefix u' s'
  | _ :: _, [] => false
  end.

Fixpoint first_alternative (alts : list str) (s : str) : option nat :=
  match alts with
  | [] => None
  | u :: alts' =>
      if str_prefix u s then Some (length u) else first_alternative alts' s
  end.

End PyStr.

(** ** The patterns of [tokenize_ingredients] *)

Module Pattern.
Import PyChar PyStr.

(** The unit alternation, in the pattern's order. *)
Definition units : list str :=
  [py "cup"; py "tbsp"; py "tsp"; py "oz"; py "lb"; py "g"; py "kg";
   py "ml"; py "l"].

(** [\d+(\.\d+)?\s*(cup|tbsp|tsp|oz|lb|g|kg|ml|l)s?] at the head of [s].
    Every quantifier is greedy, and giving characters back never helps:
    behind a shorter run of digits stands a digit, behind a skipped
    fraction part a dot, behind a shorter run of blanks a blank, and no
    unit starts with one of these. *)
Definition quantity (s : str) : option nat :=
  let n1 := count_while isdigit s in
  match n1 with
  | O => None
  | S _ =>
      let s1 := drop n1 s in
      let n2 :=
        match s1 with
        | c :: t =>
            if Ascii.eqb c "."%char then
              match count_while isdigit t with
              | O => O
              | S k => S (S k)
              end
            else O
        | [] => O
        end in
      let s2 := drop n2 s1 in
      let n3 := count_while isspace s2 in
      let s3 := drop n3 s2 in
      match first_alternative units s3 with
      | None => None
      | Some n4 =>
          let n5 :=
            match drop n4 s3 with
            | c :: _ => if Ascii.eqb c "s"%char then 1 else 0
            | [] => 0
            end in
          Some (n1 + n2 + n3 + n4 + n5)
      end
  end.

(** [\d+/\d+] at the head of [s]. *)
Definition fraction (s : str) : option nat :=
  let n1 := count_while isdigit s in
  match n1 with
  | O => None
  | S _ =>
      match drop n1 s with
      | c :: t =>
          if Ascii.eqb c "/"%char then
            match count_while isdigit t with
            | O => None
            | S k => Some (n1 + 1 + S k)
            end
          else None
      | [] => None
      end
  end.

(** [\d+] at the head of [s]. *)
Definition number (s : str) : option nat :=
  match count_while isdigit s with
  | O => None
  | S k => Some (S k)
  end.

End Pattern.

(** ** Built-in conversions *)

Module PyInt.
Import PyChar PyStr.

Definition digit_value (c : ascii) : Z := Z.of_N (ord c) - 48.

(** The digit part of an integer literal: decimal digits, single
    underscores allowed between two digits. *)
Fixpoint digits (acc : Z) (after_digit : bool) (s : str) : option Z :=
  match s with
  | [] => if after_digit then Some acc else None
  | c :: s' =>
      if isdigit c then digits (10 * acc + digit_value c) true s'
      else if Ascii.eqb c "_"%char then
        if after_digit then
          match s' with
          | d :: _ => if isdigit d then digits acc false s' else None
          | [] => None
          end
        else None
      else None
  end.

(** The whitespace that [int] skips around a literal: that of
    [str.isspace] without the separators U+001C..U+001F, which [int]
    refuses ([int('5\x1c')] is a [ValueError]). *)
Definition int_space (c : ascii) : bool :=
  isspace c && negb (in_range 28 31 c).

Definition skip_around (s : str) : str :=
  rev (drop_while int_space (rev (drop_while int_space s))).

(** [int(s)] for a [str]: surrounding whitespace, an optional sign, the
    digits.  [None] is [ValueError].  The interpreter's limit on the
    number of digits is not modelled. *)
Definition of_str (s : str) : option Z :=
  match skip_around s with
  | c :: t =>
      if Ascii.eqb c "+"%char then digits 0 false t
      else if Ascii.eqb c "-"%char then Z.opp <$> digits 0 false t
      else digits 0 false (c :: t)
  | [] => None
  end.

End PyInt.

(** ** The text normaliser ([utils/text_norm.py]) *)

Module TextNormalizer.
Import PyChar PyStr.

(** The attributes of a [TextNormalizer] instance that are data. *)
Record t : Type := Build {
  synonyms : gmap str str;
  stopwords : gset str;
  plural_map : gmap str str;
}.

Definition default_stopwords : gset str :=
  list_to_set
    [py "water"; py "salt"; py "pepper"; py "oil"; py "optional";
     py "to"; py "taste"; py "fresh"; py "dried"; py "ground"].

Definition plural_table : gmap str str :=
  list_to_map
    [(py "tomatoes", py "tomato"); (py "potatoes", py "potato");
     (py "onions", py "onion"); (py "peppers", py "pepper");
     (py "mushrooms", py "mushroom"); (py "beans", py "bean");
     (py "peas", py "pea"); (py "carrots", py "carrot");
     (py "eggs", py "egg"); (py "noodles", py "noodle")].

(** [_load_synonyms]: the mapping read from the file, or the empty
    mapping when the file does not exist ([file = None]). *)
Definition _load_synonyms (file : option (gmap str str)) : gmap str str :=
  match file with
  | Some m => m
  | None => ∅
  end.

(** [__init__]: [stopwords or {...}] takes the default for [None] and for
    the empty set alike. *)
Definition __init__ (file : option (gmap str str))
    (stopwords : option (gset str)) : t :=
  {| synonyms := _load_synonyms file;
     stopwords :=
       match stopwords with
       | Some sw => if decide (sw = ∅) then default_stopwords else sw
       | None => default_stopwords
       end;
     plural_map := plural_table |}.

Section Methods.
(** [WordNetLemmatizer().lemmatize], on one word. *)
Variable lemmatize : str -> str.
Variable self : t.

(** The whole-phrase replacement by a table. *)
Definition replace_whole (table : gmap str str) (text : str) : str :=
  match table !! text with
  | Some v => v
  | None => text
  end.

Definition normalize (text : str) (remove_stopwords : bool) : str :=
  let text := strip (lower text) in
  let text := sub_punct text in
  let text := join [space] (split text) in
  let text := replace_whole (synonyms self) text in
  let text := replace_whole (plural_map self) text in
  let words := split text in
  let words := map lemmatize words in
  let words :=
    if remove_stopwords
    then filter (fun w => w ∉ stopwords self) words
    else words in
  join [space] words.

Definition normalize_list (items : list str) (remove_stopwords : bool)
    : list str :=
  map (fun item => normalize item remove_stopwords) items.

(** The three substitutions of the loop body, in order. *)
Definition strip_measures (item : str) : str :=
  let item := sub_delete Pattern.quantity 0 item in
  let item := sub_delete Pattern.fraction 0 item in
  sub_delete Pattern.number 0 item.

Definition tokenize_ingredients (ingredients_str : str) : list str :=
  let items := map strip (split_on comma ingredients_str) in
  let step (normalized : list str) (item : str) : list str :=
    let norm := normalize (strip_measures item) true in
    match norm with
    | [] => normalized
    | _ :: _ => normalized ++ [norm]
    end in
  fold_left step items [].

Definition extract_key_terms (text : str) : list str :=
  let normalized := normalize text true in
  let words := split normalized in
  filter (fun w => 2 < length w) words.

End Methods.

End TextNormalizer.

(** ** Exceptions and results *)

Inductive exn : Type :=
  | KeyError
  | ValueError          (* also pydantic's ValidationError, a subclass *)
  | AttributeError
  | TypeError
  | FileNotFoundError
  | IndexError
  | LibraryError        (* whatever the BM25 constructor raises *)
  | DanglingReference.  (* a reference outside the store; Python has none *)

Inductive result (A : Type) : Type :=
  | Ok (a : A)
  | Raise (e : exn).
Arguments Ok {A} a.
Arguments Raise {A} e.

Definition bind {A B : Type} (m : result A) (f : A -> result B) : result B :=
  match m with
  | Ok a => f a
  | Raise e => Raise e
  end.

Declare Scope result_scope.
Delimit Scope result_scope with result.
Notation "'let*' x ':=' m 'in' f" := (bind m (fun x => f))
  (at level 10, x pattern, m at level 100, f at level 200) : result_scope.
Local Open Scope result_scope.

Definition of_option {A : Type} (e : exn) (o : option A) : result A :=
  match o with
  | Some a => Ok a
  | None => Raise e
  end.

(** ** Recipes ([schemas.py]) *)

Module Recipe.

Record t (Score : Type) : Type := Build {
  id : Z;
  title : str;
  ingredients : list str;
  instructions : str;
  cuisine : str;
  tags : list str;
  time_minutes : option Z;
  score : option Score;
}.
Arguments Build {Score}.
Arguments id {Score}.
Arguments title {Score}.
Arguments ingredients {Score}.
Arguments instructions {Score}.
Arguments cuisine {Score}.
Arguments tags {Score}.
Arguments time_minutes {Score}.
Arguments score {Score}.

(** [Recipe(id=..., title=..., ...)] with [score] left at its default.
    The three [str] fields are validated: [None] is refused with a
    [ValidationError], which is a [ValueError]. *)
Definition validate {Score : Type} (id : Z) (title : option str)
    (ingredients : list str) (instructions cuisine : option str)
    (tags : list str) (time_minutes : option Z) : result (t Score) :=
  match title, instructions, cuisine with
  | Some ti, Some ins, Some cu =>
      Ok (Build id ti ingredients ins cu tags time_minutes None)
  | _, _, _ => Raise ValueError
  end.

(** [recipe.score = s] *)
Definition set_score {Score : Type} (r : t Score) (s : Score) : t Score :=
  Build (id r) (title r) (ingredients r) (instructions r) (cuisine r)
        (tags r) (time_minutes r) (Some s).

End Recipe.

(** ** Python lists *)

Module PyList.

(** [l[:k]] *)
Definition slice_to {A : Type} (k : Z) (l : list A) : list A :=
  if (0 <=? k)%Z then take (Z.to_nat k) l
  else take (length l - Z.to_nat (- k)) l.

(** [enumerate(l, n)] *)
Fixpoint enumerate_from {A : Type} (n : nat) (l : list A) : list (nat * A) :=
  match l with
  | [] => []
  | x :: l' => (n, x) :: enumerate_from (S n) l'
  end.

(** The elements of [l] at their first occurrence, in the order of [l]:
    the element at position [i] stays when it does not occur among the
    [i] elements before it. *)
Definition first_occurrences {A : Type} `{EqDecision A} (l : list A)
    : list A :=
  map snd (filter (fun p => p.2 ∉ take p.1 l) (enumerate_from 0 l)).

Section Sorted.
Context {A K : Type}.
Variable ltb : K -> K -> bool.
Variable key : A -> K.

(** [x] goes in front of the first element whose key is not greater. *)
Fixpoint insert_desc (x : A) (l : list A) : list A :=
  match l with
  | [] => [x]
  | y :: l' => if ltb (key x) (key y) then y :: insert_desc x l' else x :: l
  end.

(** [sorted(l, key=key, reverse=True)]: the stable sort into
    non-increasing keys, comparing with [<] only; elements whose keys
    are not ordered by [<] keep their order of [l]. *)
Definition sorted_reverse (l : list A) : list A := foldr insert_desc [] l.

(** What the sort achieves for two elements [x] before [y] of its output,
    [before] being the order of its input: the key of [y] is not greater,
    and when [<] does not order the two keys, [x] stood before [y]. *)
Definition descending_stable (before : A -> A -> Prop) (x y : A) : Prop :=
  ltb (key x) (key y) = false /\
  (ltb (key y) (key x) = false -> before x y).
End Sorted.

End PyList.

(** ** The recipe index ([recipes/indexer.py]) *)

Module RecipeIndexer.
Import PyChar PyStr PyList.

(** A row as [csv.DictReader] yields it: a value per column of the
    header; a row shorter than the header has [None] in the columns it
    lacks. *)
Abbreviation row := (gmap str (option str)).

(** What [_load_recipes] prints. *)
Inductive event : Type :=
  | SkippingInvalidRow (e : exn)
  | Loaded (n : nat).

Section Model.
(** The type of scores, a float in the source, and its [<]. *)
Variable Score : Type.
Variable score_ltb : Score -> Score -> bool.
(** [rank_bm25.BM25Okapi]: the constructor over a tokenized corpus,
    which may raise, and [get_scores]. *)
Variable BM25 : Type.
Variable BM25Okapi : list (list str) -> result BM25.
Variable get_scores : BM25 -> list str -> list Score.
(** The process-wide normaliser. *)
Variable lemmatize : str -> str.
Variable normalizer : TextNormalizer.t.

(** The object store: a [Recipe] object lives at a position of the
    heap, and a reference is that position.  [stdout] collects what the
    loader prints. *)
Record world : Type := World {
  heap : list (Recipe.t Score);
  stdout : list event;
}.

Definition alloc (r : Recipe.t Score) (w : world) : nat * world :=
  (length (heap w), World (heap w ++ [r]) (stdout w)).

Definition deref (w : world) (l : nat) : result (Recipe.t Score) :=
  of_option DanglingReference (heap w !! l).

Definition store (l : nat) (r : Recipe.t Score) (w : world) : world :=
  World (<[l := r]> (heap w)) (stdout w).

Definition print (e : event) (w : world) : world :=
  World (heap w) (stdout w ++ [e]).

(** The attributes of a [RecipeIndexer] instance. *)
Record t : Type := Build {
  recipes : list nat;
  bm25 : option BM25;
  tokenized_corpus : list (list str);
}.

(** [row[k]] *)
Definition getitem (r : row) (k : str) : result (option str) :=
  of_option KeyError (r !! k).

(** [v.split(',')] stripped field by field; [None] has no [split]. *)
Definition split_strip (v : option str) : result (list str) :=
  match v with
  | Some s => Ok (map strip (split_on comma s))
  | None => Raise AttributeError
  end.

(** [int(v)] *)
Definition int (v : option str) : result Z :=
  match v with
  | Some s => of_option ValueError (PyInt.of_str s)
  | None => Raise TypeError
  end.

(** The optional time: [row.get('time_minutes')] when truthy is parsed,
    and a [ValueError] of the parse is passed over. *)
Definition parse_time (r : row) : option Z :=
  match r !! py "time_minutes" with
  | Some (Some (c :: s)) => PyInt.of_str (c :: s)
  | _ => None
  end.

(** The body of the [try] in [_load_recipes]. *)
Definition parse_row (r : row) : result (Recipe.t Score) :=
  let* v := getitem r (py "ingredients") in
  let* ingredients := split_strip v in
  let* v := getitem r (py "tags") in
  let* tags := split_strip v in
  let time_minutes := parse_time r in
  let* v := getitem r (py "id") in
  let* id := int v in
  let* title := getitem r (py "title") in
  let* instructions := getitem r (py "instructions") in
  let* cuisine := getitem r (py "cuisine") in
  Recipe.validate id title ingredients instructions cuisine tags
                  time_minutes.

(** The loop over the rows: [except (KeyError, ValueError)] prints a
    warning and goes on; any other exception leaves the loop. *)
Fixpoint load_rows (rows : list row) (self : t) (w : world)
    : result (t * world) :=
  match rows with
  | [] => Ok (self, w)
  | r :: rows' =>
      match parse_row r with
      | Ok recipe =>
          let '(l, w') := alloc recipe w in
          load_rows rows'
            (Build (recipes self ++ [l]) (bm25 self)
                   (tokenized_corpus self)) w'
      | Raise KeyError =>
          load_rows rows' self (print (SkippingInvalidRow KeyError) w)
      | Raise ValueError =>
          load_rows rows' self (print (SkippingInvalidRow ValueError) w)
      | Raise e => Raise e
      end
  end.

(** [_load_recipes]: [source] is the rows of the file, [None] when the
    path does not exist. *)
Definition _load_recipes (source : option (list row)) (self : t)
    (w : world) : result (t * world) :=
  match source with
  | None => Raise FileNotFoundError
  | Some rows =>
      let* (self, w) := load_rows rows self w in
      Ok (self, print (Loaded (length (recipes self))) w)
  end.

(** The tokens of one recipe: those of its ingredients, joined by
    blanks, and the key terms of its title. *)
Definition recipe_tokens (recipe : Recipe.t Score) : list str :=
  let ingredient_text := join [space] (Recipe.ingredients recipe) in
  let tokens :=
    TextNormalizer.tokenize_ingredients lemmatize normalizer
      ingredient_text in
  let title_tokens :=
    TextNormalizer.extract_key_terms lemmatize normalizer
      (Recipe.title recipe) in
  tokens ++ title_tokens.

Fixpoint tokenize_all (w : world) (ls : list nat)
    : result (list (list str)) :=
  match ls with
  | [] => Ok []
  | l :: ls' =>
      let* recipe := deref w l in
      let* rest := tokenize_all w ls' in
      Ok (recipe_tokens recipe :: rest)
  end.

Definition _build_index (self : t) (w : world) : result t :=
  let* corpus := tokenize_all w (recipes self) in
  let* index := BM25Okapi corpus in
  Ok (Build (recipes self) (Some index) corpus).

Definition __init__ (source : option (list row)) (w : world)
    : result (t * world) :=
  let self := Build [] None [] in
  let* (self, w) := _load_recipes source self w in
  let* self := _build_index self w in
  Ok (self, w).

(** The query tokens: first occurrences, in order. *)
Fixpoint dedup (seen : gset str) (tokens : list str) : list str :=
  match tokens with
  | [] => []
  | tk :: tokens' =>
      if decide (tk ∈ seen) then dedup seen tokens'
      else tk :: dedup ({[tk]} ∪ seen) tokens'
  end.

Definition query_tokens (ingredients : list str) : list str :=
  let normalized_ingredients :=
    TextNormalizer.normalize_list lemmatize normalizer ingredients true in
  dedup ∅ (concat (map split normalized_ingredients)).

(** [sorted(range(len(scores)), key=lambda i: scores[i],
    reverse=True)[:k]] *)
Definition top_indices (scores : list Score) (k : Z) : list nat :=
  slice_to k
    (map fst (sorted_reverse score_ltb snd (enumerate_from 0 scores))).

(** The loop that builds the results: a copy of the stored recipe
    ([model_copy] makes a new object), its score set. *)
Fixpoint build_results (self : t) (scores : list Score)
    (idxs : list nat) (w : world) : result (list nat * world) :=
  match idxs with
  | [] => Ok ([], w)
  | idx :: idxs' =>
      let* l := of_option IndexError (recipes self !! idx) in
      let* stored := deref w l in
      let '(l', w) := alloc stored w in
      let* s := of_option IndexError (scores !! idx) in
      let w := store l' (Recipe.set_score stored s) w in
      let* (results, w) := build_results self scores idxs' w in
      Ok (l' :: results, w)
  end.

(** [search]; its prints are not modelled. *)
Definition search (self : t) (ingredients : list str) (k : Z)
    (w : world) : result (list nat * world) :=
  match bm25 self with
  | None => Ok ([], w)
  | Some index =>
      match query_tokens ingredients with
      | [] => Ok ([], w)
      | tk :: tks =>
          let scores := get_scores index (tk :: tks) in
          build_results self scores (top_indices scores k) w
      end
  end.

Fixpoint find_by_id (w : world) (ls : list nat) (recipe_id : Z)
    : result (option nat) :=
  match ls with
  | [] => Ok None
  | l :: ls' =>
      let* recipe := deref w l in
      if decide (Recipe.id recipe = recipe_id) then Ok (Some l)
      else find_by_id w ls' recipe_id
  end.

(** [get_recipe_by_id]: a reference to the stored object, or [None]. *)
Definition get_recipe_by_id (self : t) (recipe_id : Z) (w : world)
    : result (option nat) :=
  find_by_id w (recipes self) recipe_id.

Definition get_recipe_count (self : t) : nat := length (recipes self).

(** [get_all_recipes]: [if limit:] is false for [None] and for [0]. *)
Definition get_all_recipes (self : t) (limit : option Z) : list nat :=
  match limit with
  | Some k => if (k =? 0)%Z then recipes self else slice_to k (recipes self)
  | None => recipes self
  end.

(** The stored collection as values: the objects behind [self.recipes]. *)
Definition stored (self : t) (w : world) : list (Recipe.t Score) :=
  omap (fun l => heap w !! l) (recipes self).

(** The rows that [_load_recipes] accepts, parsed, in order. *)
Definition accepted (rows : list row) : list (Recipe.t Score) :=
  omap (fun r => match parse_row r with
                 | Ok recipe => Some recipe
                 | Raise _ => None
                 end) rows.

(** The integer in the [id] column of a row, when there is one. *)
Definition row_id (r : row) : option Z :=
  match r !! py "id" with
  | Some (Some s) => PyInt.of_str s
  | _ => None
  end.

(** The warnings among the printed lines. *)
(** A row whose parse raises one of the two exceptions that
    [_load_recipes] catches. *)
Definition caught (r : row) : bool :=
  match parse_row r with
  | Raise KeyError | Raise ValueError => true
  | _ => false
  end.

(** The state of a constructed index in a world: [self.recipes] refers to
    the objects [news], which stand in the heap from position [base] on,
    and the scorer was made from the tokenized corpus, which has an entry
    per recipe. *)
Definition built (base : nat) (news : list (Recipe.t Score))
    (self : t) (w : world) : Prop :=
  recipes self = seq base (length news) /\
  (exists pre post, heap w = pre ++ news ++ post /\ length pre = base) /\
  (exists index, bm25 self = Some index /\
                 BM25Okapi (tokenized_corpus self) = Ok index) /\
  length (tokenized_corpus self) = length news.

(** [c] is [r] with the score [s] populated: the score field holds [s],
    every other field is that of [r]. *)
Definition scored_copy (r : Recipe.t Score) (s : Score)
    (c : Recipe.t Score) : Prop :=
  Recipe.score c = Some s /\
  Recipe.id c = Recipe.id r /\
  Recipe.title c = Recipe.title r /\
  Recipe.ingredients c = Recipe.ingredients r /\
  Recipe.instructions c = Recipe.instructions r /\
  Recipe.cuisine c = Recipe.cuisine r /\
  Recipe.tags c = Recipe.tags r /\
  Recipe.time_minutes c = Recipe.time_minutes r.

(** A copy of the stored recipe [idx] with its score from [scores]. *)
Definition copy_of (news : list (Recipe.t Score)) (scores : list Score)
    (idx : nat) (c : Recipe.t Score) : Prop :=
  exists r s, news !! idx = Some r /\ scores !! idx = Some s /\
              c = Recipe.set_score r s.

(** The ranked pairs of index and score behind [top_indices]. *)
Definition ranked (scores : list Score) (k : Z) : list (nat * Score) :=
  slice_to k (sorted_reverse score_ltb snd (enumerate_from 0 scores)).

Definition is_warning (e : event) : bool :=
  match e with
  | SkippingInvalidRow _ => true
  | Loaded _ => false
  end.

Definition skipped (out : list event) : list event :=
  filter (fun e => Is_true (is_warning e)) out.

(** A list field as the loader makes it: at least one entry, every entry
    stripped and without a comma. *)
Definition list_field (l : list str) : Prop :=
  l <> [] /\
  Forall (fun x => strip x = x /\ Forall (fun c => c <> comma) x) l.

(** The recipe that the loader makes from a row. *)
Definition from_row (r : row) (recipe : Recipe.t Score) : Prop :=
  Recipe.score recipe = None /\
  list_field (Recipe.ingredients recipe) /\
  list_field (Recipe.tags recipe) /\
  r !! py "title" = Some (Some (Recipe.title recipe)) /\
  r !! py "instructions" = Some (Some (Recipe.instructions recipe)) /\
  r !! py "cuisine" = Some (Some (Recipe.cuisine recipe)) /\
  (exists s, r !! py "id" = Some (Some s) /\
             PyInt.of_str s = Some (Recipe.id recipe)) /\
  match Recipe.time_minutes recipe with
  | Some n => exists s, r !! py "time_minutes" = Some (Some s) /\
                        PyInt.of_str s = Some n
  | None => True
  end.

End Model.

Arguments World {Score}.
Arguments heap {Score}.
Arguments stdout {Score}.
Arguments Build {BM25}.
Arguments recipes {BM25}.
Arguments bm25 {BM25}.
Arguments tokenized_corpus {BM25}.
Arguments alloc {Score}.
Arguments deref {Score}.
Arguments store {Score}.
Arguments print {Score}.
Arguments load_rows {Score BM25}.
Arguments _load_recipes {Score BM25}.
Arguments recipe_tokens {Score}.
Arguments tokenize_all {Score}.
Arguments _build_index {Score BM25}.
Arguments __init__ {Score BM25}.
Arguments top_indices {Score}.
Arguments build_results {Score BM25}.
Arguments search {Score} score_ltb {BM25}.
Arguments find_by_id {Score}.
Arguments get_recipe_by_id {Score BM25}.
Arguments get_recipe_count {BM25}.
Arguments get_all_recipes {BM25}.
Arguments stored {Score BM25}.
Arguments built {Score BM25} BM25Okapi.
Arguments copy_of {Score}.
Arguments scored_copy {Score}.
Arguments ranked {Score} score_ltb.

End RecipeIndexer.

(** ** A sample instance of the third-party parts

    Used where a statement is evaluated at concrete data: a lemmatiser that
    changes no word, and a scorer over integers that counts, for each
    document, the occurrences of query tokens in it.  Its constructor
    refuses the empty corpus. *)

Module Sample.
Import RecipeIndexer.

Definition lemmatize (w : str) : str := w.

Definition BM25 : Type := list (list str).

Definition BM25Okapi (corpus : list (list str)) : result BM25 :=
  match corpus with
  | [] => Raise LibraryError
  | _ :: _ => Ok corpus
  end.

Definition occurrences (query doc : list str) : Z :=
  Z.of_nat (length (filter (fun tk => tk ∈ query) doc)).

Definition get_scores (index : BM25) (query : list str) : list Z :=
  map (occurrences query) index.

(** [score >= 0.5] on these integer scores. *)
Definition at_least_half (s : Z) : bool := (1 <=? s)%Z.

(** A lemmatiser that is not idempotent: it shortens "ass" to "as" and
    "as" to "a", and changes no other word. *)
Definition shortening (w : str) : str :=
  if decide (w = py "ass") then py "as"
  else if decide (w = py "as") then py "a"
  else w.

Definition normalizer : TextNormalizer.t := TextNormalizer.__init__ None None.

(** The synonym table of the specification's example. *)
Definition scallion_normalizer : TextNormalizer.t :=
  TextNormalizer.__init__ (Some {[ py "scallion" := py "green onion" ]}) None.

Definition empty_world : world Z := World [] [].

Definition init (source : option (list row)) :=
  __init__ BM25Okapi lemmatize normalizer source empty_world.

Definition search (self : t BM25) :=
  RecipeIndexer.search Z.ltb get_scores lemmatize normalizer self.

(** A row with all seven columns. *)
Definition full_row (id title ingredients instructions cuisine tags time : string)
    : row :=
  list_to_map
    [(py "id", Some (py id)); (py "title", Some (py title));
     (py "ingredients", Some (py ingredients));
     (py "instructions", Some (py instructions));
     (py "cuisine", Some (py cuisine)); (py "tags", Some (py tags));
     (py "time_minutes", Some (py time))].

(** A row of two fields under a header of seven columns. *)
Definition short_row (id title : string) : row :=
  list_to_map
    [(py "id", Some (py id)); (py "title", Some (py title));
     (py "ingredients", None); (py "instructions", None);
     (py "cuisine", None); (py "tags", None); (py "time_minutes", None)].

Definition chicken_rice : row :=
  full_row "1" "Chicken Rice" "chicken breast,rice,soy sauce" "Cook."
           "asian" "quick" "30".

Definition tomato_pasta : row :=
  full_row "2" "Tomato Pasta" "tomato,pasta,basil" "Boil." "italian"
           "easy" "".

(** A second row with the id of [chicken_rice]. *)
Definition chicken_soup : row :=
  full_row "1" "Chicken Soup" "chicken,carrots" "Simmer." "french" "slow" "90".

(** The index over the corpus of the specification's example, and the
    world it is constructed in. *)
Definition loaded : t BM25 * world Z :=
  match init (Some [chicken_rice; tomato_pasta]) with
  | Ok p => p
  | Raise _ => (Build [] None [], empty_world)
  end.

(** The outcome of the query of the specification's example. *)
Definition searched : list nat * world Z :=
  match search loaded.1 [py "chicken"; py "rice"] 5 loaded.2 with
  | Ok p => p
  | Raise _ => ([], loaded.2)
  end.

End Sample.

(** ** A client of the index: a sequence of [search] calls *)

Module Client.
Import RecipeIndexer.

Section Model.
Variable Score : Type.
Variable score_ltb : Score -> Score -> bool.
Variable BM25 : Type.
Variable get_scores : BM25 -> list str -> list Score.
Variable lemmatize : str -> str.
Variable normalizer : TextNormalizer.t.

(** The calls [search(ingredients, k)] one after the other, results
    dropped. *)
Fixpoint run_searches (self : t BM25) (calls : list (list str * Z))
    (w : world Score) : result (world Score) :=
  match calls with
  | [] => Ok w
  | (ingredients, k) :: calls' =>
      let* (_, w) :=
        search score_ltb get_scores lemmatize normalizer self ingredients k w in
      run_searches self calls' w
  end.
End Model.

Arguments run_searches {Score} score_ltb {BM25}.

End Client.

(** ** The endpoints that use the index ([main.py]) *)

Module Main.
Import PyChar PyStr RecipeIndexer.

(** What a handler gives back: a response, or the [HTTPException] it
    raises. *)
Inductive http (A : Type) : Type :=
  | Response (a : A)
  | HTTPException (status_code : nat).
Arguments Response {A} a.
Arguments HTTPException {A} status_code.

(** [RecipeSearchResponse], its recipes as references. *)
Record RecipeSearchResponse : Type := Build {
  recipes : list nat;
  query_ingredients : list str;
  total_results : nat;
}.

(** [[ing.strip() for ing in s.split(',') if ing.strip()]] *)
Definition parse_ingredients (s : str) : list str :=
  omap (fun ing => match strip ing with
                   | [] => None
                   | c :: t => Some (c :: t)
                   end)
       (split_on comma s).

Section Model.
Variable Score : Type.
Variable score_ltb : Score -> Score -> bool.
(** [score >= 0.5] *)
Variable at_least_half : Score -> bool.
Variable BM25 : Type.
Variable get_scores : BM25 -> list str -> list Score.
Variable lemmatize : str -> str.
Variable normalizer : TextNormalizer.t.

(** [[r for r in recipes if r.score >= 0.5]]: comparing a missing score
    with a float raises [TypeError]. *)
Fixpoint filter_low_scores (w : world Score) (ls : list nat)
    : result (list nat) :=
  match ls with
  | [] => Ok []
  | l :: ls' =>
      let* recipe := deref w l in
      match Recipe.score recipe with
      | None => Raise TypeError
      | Some s =>
          let* rest := filter_low_scores w ls' in
          Ok (if at_least_half s then l :: rest else rest)
      end
  end.

(** The recipes that pass the filter, as a predicate on references. *)
Definition scored_at_least_half (w : world Score) (l : nat) : bool :=
  match heap w !! l with
  | Some recipe =>
      match Recipe.score recipe with
      | Some s => at_least_half s
      | None => false
      end
  | None => false
  end.

(** The part of both search handlers behind the ingredients: [generated]
    is what the [try] block around the recipe generator leaves in
    [recipes] (nothing when the generator is unavailable or fails), and
    [w] the world after it; the local search is the fallback.  The log
    lines of the handlers are not part of the event list. *)
Definition respond (ingredients : list str) (limit : Z)
    (generated : list nat) (self : t BM25) (w : world Score)
    : result (http RecipeSearchResponse * world Score) :=
  match generated with
  | _ :: _ =>
      Ok (Response (Build generated ingredients (length generated)), w)
  | [] =>
      let* (found, w) :=
        search score_ltb get_scores lemmatize normalizer self ingredients
               limit w in
      let* kept := filter_low_scores w found in
      Ok (Response (Build kept ingredients (length kept)), w)
  end.

(** [GET /recipes?s=...&limit=...] *)
Definition search_recipes (s : str) (limit : Z) (generated : list nat)
    (self : t BM25) (w : world Score)
    : result (http RecipeSearchResponse * world Score) :=
  match parse_ingredients s with
  | [] => Ok (HTTPException 400, w)
  | ing :: ings => respond (ing :: ings) limit generated self w
  end.

(** [POST /suggest], the request validated. *)
Definition suggest_recipes (ingredients : list str) (max_results : Z)
    (generated : list nat) (self : t BM25) (w : world Score)
    : result (http RecipeSearchResponse * world Score) :=
  match ingredients with
  | [] => Ok (HTTPException 400, w)
  | ing :: ings => respond (ing :: ings) max_results generated self w
  end.

(** [GET /recipes/{recipe_id}]: a [Recipe] object is true, [None] is not. *)
Definition get_recipe (recipe_id : Z) (self : t BM25) (w : world Score)
    : result (http nat) :=
  let* recipe := get_recipe_by_id self recipe_id w in
  match recipe with
  | Some l => Ok (Response l)
  | None => Ok (HTTPException 404)
  end.

End Model.

Arguments filter_low_scores {Score}.
Arguments scored_at_least_half {Score}.
Arguments respond {Score} score_ltb at_least_half {BM25}.
Arguments search_recipes {Score} score_ltb at_least_half {BM25}.
Arguments suggest_recipes {Score} score_ltb at_least_half {BM25}.
Arguments get_recipe {Score BM25}.

End Main.

(** * Properties *)

(** ** Characters *)

Module PyCharFacts.
Import PyChar.

Ltac by_cases c :=
  destruct c as [[] [] [] [] [] [] [] []]; vm_compute; try reflexivity;
  try discriminate; auto.

Lemma lower_idem (c : ascii) : lower (lower c) = lower c.
Proof. by_cases c. Qed.

Lemma isspace_lower (c : ascii) : isspace (lower c) = isspace c.
Proof. by_cases c. Qed.

Lemma lower_space : lower PyStr.space = PyStr.space.
Proof. reflexivity. Qed.

Lemma isspace_space : isspace PyStr.space = true.
Proof. reflexivity. Qed.

Lemma kept_space : kept PyStr.space = true.
Proof. reflexivity. Qed.

Lemma canonical_intro (c : ascii) :
  isspace c = false -> kept c = true -> lower c = c -> canonical c = true.
Proof.
  intros Hs Hk Hl. unfold canonical. rewrite Hs, Hk, Hl.
  simpl. apply Ascii.eqb_refl.
Qed.

Lemma canonical_elim (c : ascii) :
  canonical c = true -> isspace c = false /\ kept c = true /\ lower c = c.
Proof.
  unfold canonical. intros H.
  apply andb_true_iff in H as [H Hl]. apply andb_true_iff in H as [Hs Hk].
  apply negb_true_iff in Hs. apply Ascii.eqb_eq in Hl. auto.
Qed.

End PyCharFacts.

(** ** Strings *)

Module PyStrFacts.
Import PyChar PyStr PyCharFacts.

Lemma canonical_word_is_word (w : str) : canonical_word w -> is_word w.
Proof.
  intros [Hne Hall]. split; [exact Hne|].
  eapply Forall_impl; [exact Hall|].
  intros c Hc. apply canonical_elim in Hc. tauto.
Qed.

Lemma drop_while_Forall (P : ascii -> Prop) (p : ascii -> bool) (s : str) :
  Forall P s -> Forall P (drop_while p s).
Proof.
  induction 1 as [|c s Hc Hs IH]; simpl; [constructor|].
  destruct (p c); [exact IH|]. constructor; assumption.
Qed.

Lemma strip_Forall (P : ascii -> Prop) (s : str) :
  Forall P s -> Forall P (strip s).
Proof.
  intros H. unfold strip, rstrip, lstrip.
  apply Forall_rev, drop_while_Forall, Forall_rev, drop_while_Forall, H.
Qed.

Lemma split_cons_word (c : ascii) (s : str) :
  isspace c = false ->
  split (c :: s) =
    match s with
    | [] => [[c]]
    | d :: _ =>
        if isspace d then [c] :: split s
        else match split s with
             | w :: ws => (c :: w) :: ws
             | [] => [[c]]
             end
    end.
Proof. intros H. simpl. rewrite H. reflexivity. Qed.

(** The words of [split] are words, and their characters are characters
    of the string. *)
Lemma split_words (P : ascii -> Prop) (s : str) :
  Forall P s ->
  Forall (fun w => is_word w /\ Forall P w) (split s).
Proof.
  induction 1 as [|c s Hc Hs IH]; [constructor|].
  destruct (isspace c) eqn:Ec.
  - simpl. rewrite Ec. exact IH.
  - rewrite split_cons_word by exact Ec.
    destruct s as [|d s'].
    + repeat constructor; [discriminate|exact Ec|exact Hc].
    + destruct (isspace d) eqn:Ed.
      * constructor; [|exact IH].
        repeat constructor; [discriminate|exact Ec|exact Hc].
      * destruct (split (d :: s')) as [|w ws] eqn:Es.
        -- repeat constructor; [discriminate|exact Ec|exact Hc].
        -- inversion IH as [|? ? [[Hne Hw] HP] Hrest]; subst.
           constructor; [|exact Hrest].
           split; [split; [discriminate|]|]; constructor; assumption.
Qed.

Lemma split_one_word (w : str) : is_word w -> split w = [w].
Proof.
  intros [Hne Hall]. induction Hall as [|c w Hc Hw IH]; [congruence|].
  rewrite split_cons_word by exact Hc.
  destruct w as [|d w']; [reflexivity|].
  inversion Hw as [|? ? Hd _]; subst. cbv iota. rewrite Hd.
  rewrite IH by discriminate. reflexivity.
Qed.

Lemma split_word_space (w s : str) :
  is_word w -> split (w ++ space :: s) = w :: split s.
Proof.
  intros [Hne Hall]. induction Hall as [|c w Hc Hw IH]; [congruence|].
  change ((c :: w) ++ space :: s) with (c :: (w ++ space :: s)).
  rewrite split_cons_word by exact Hc.
  destruct w as [|d w'].
  - simpl. reflexivity.
  - inversion Hw as [|? ? Hd _]; subst.
    change ((d :: w') ++ space :: s) with (d :: (w' ++ space :: s)) in *.
    cbv iota. rewrite Hd. rewrite IH by discriminate. reflexivity.
Qed.

Lemma join_cons (w : str) (ws : list str) :
  ws <> [] -> join [space] (w :: ws) = w ++ space :: join [space] ws.
Proof. destruct ws; [congruence|reflexivity]. Qed.

(** Splitting a joined list of words gives the words back. *)
Lemma split_join (ws : list str) :
  Forall is_word ws -> split (join [space] ws) = ws.
Proof.
  induction 1 as [|w ws Hw Hws IH]; [reflexivity|].
  destruct ws as [|w' ws'].
  - apply split_one_word, Hw.
  - rewrite join_cons by discriminate.
    rewrite split_word_space by exact Hw. rewrite IH. reflexivity.
Qed.

Lemma join_Forall (P : ascii -> Prop) (ws : list str) :
  P space -> Forall (Forall P) ws -> Forall P (join [space] ws).
Proof.
  intros Hsp. induction 1 as [|w ws Hw Hws IH]; [constructor|].
  destruct ws as [|w' ws']; [exact Hw|].
  rewrite join_cons by discriminate.
  apply Forall_app. split; [exact Hw|]. constructor; assumption.
Qed.

Lemma lstrip_fixed (s : str) (a : ascii) :
  head s = Some a -> isspace a = false -> lstrip s = s.
Proof.
  destruct s as [|c s]; [discriminate|]. intros [= ->] Ha.
  unfold lstrip. simpl. rewrite Ha. reflexivity.
Qed.

Lemma rstrip_fixed (s : str) (b : ascii) :
  last s = Some b -> isspace b = false -> rstrip s = s.
Proof.
  intros Hl Hb. apply last_Some in Hl as [m ->].
  unfold rstrip. rewrite rev_unit. simpl. rewrite Hb.
  rewrite <- rev_unit. apply rev_involutive.
Qed.

Lemma word_head_last (w : str) :
  is_word w ->
  exists a b, head w = Some a /\ last w = Some b /\
              isspace a = false /\ isspace b = false.
Proof.
  intros [Hne Hall].
  destruct (head w) as [a|] eqn:Ha; [|apply head_None in Ha; congruence].
  destruct (last w) as [b|] eqn:Hb; [|apply last_None in Hb; congruence].
  exists a, b. repeat split.
  - apply head_Some_elem_of in Ha. rewrite Forall_forall in Hall.
    apply Hall, Ha.
  - apply last_Some_elem_of in Hb. rewrite Forall_forall in Hall.
    apply Hall, Hb.
Qed.

(** A joined, non-empty list of words starts and ends like a word. *)
Lemma join_head_last (ws : list str) :
  Forall is_word ws -> ws <> [] ->
  exists a b, head (join [space] ws) = Some a /\
              last (join [space] ws) = Some b /\
              isspace a = false /\ isspace b = false.
Proof.
  induction 1 as [|w ws Hw Hws IH]; [congruence|]. intros _.
  destruct ws as [|w2 ws'].
  - apply word_head_last, Hw.
  - destruct IH as (a2 & b & Ha2 & Hb & _ & Hsb); [discriminate|].
    destruct (word_head_last w Hw) as (a & _ & Ha & _ & Hsa & _).
    rewrite join_cons by discriminate.
    exists a, b. repeat split; try assumption.
    + rewrite head_app, Ha. reflexivity.
    + rewrite last_app. rewrite last_cons, Hb. reflexivity.
Qed.

(** Stripping a joined list of words changes nothing. *)
Lemma strip_join (ws : list str) :
  Forall is_word ws -> strip (join [space] ws) = join [space] ws.
Proof.
  intros Hws. destruct ws as [|w ws']; [reflexivity|].
  destruct (join_head_last (w :: ws') Hws) as (a & b & Ha & Hb & Hsa & Hsb);
    [discriminate|].
  unfold strip. rewrite (lstrip_fixed _ a) by assumption.
  apply (rstrip_fixed _ b); assumption.
Qed.

Lemma lower_fixed (s : str) :
  Forall (fun c => PyChar.lower c = c) s -> lower s = s.
Proof.
  unfold lower. induction 1 as [|c s Hc Hs IH]; [reflexivity|].
  simpl. rewrite Hc. f_equal. exact IH.
Qed.

Lemma sub_punct_fixed (s : str) :
  Forall (fun c => kept c = true) s -> sub_punct s = s.
Proof.
  unfold sub_punct. induction 1 as [|c s Hc Hs IH]; [reflexivity|].
  simpl. rewrite Hc. f_equal. exact IH.
Qed.

Lemma lower_lower_fixed (s : str) :
  Forall (fun c => PyChar.lower c = c) (lower s).
Proof.
  unfold lower. induction s as [|c s IH]; simpl; constructor; [|exact IH].
  apply lower_idem.
Qed.

Lemma sub_punct_kept (s : str) :
  Forall (fun c => PyChar.lower c = c) s ->
  Forall (fun c => kept c = true /\ PyChar.lower c = c) (sub_punct s).
Proof.
  unfold sub_punct. induction 1 as [|c s Hc Hs IH]; simpl; constructor;
    [|exact IH].
  destruct (kept c) eqn:Ek; [auto|]. split; reflexivity.
Qed.

End PyStrFacts.

(** ** The normaliser *)

Module NormalizerFacts.
Import PyChar PyStr PyCharFacts PyStrFacts TextNormalizer.

Lemma canonical_wordb_spec (w : str) :
  canonical_wordb w = true -> canonical_word w.
Proof.
  destruct w as [|c w]; [discriminate|]. intros H. split; [discriminate|].
  apply Forall_forall. intros a Ha.
  unfold canonical_wordb in H. rewrite forallb_forall in H.
  apply H, list_elem_of_In, Ha.
Qed.

Lemma canonical_words_spec (ws : list str) :
  forallb canonical_wordb ws = true -> Forall canonical_word ws.
Proof.
  intros H. apply Forall_forall. intros w Hw.
  rewrite forallb_forall in H.
  apply canonical_wordb_spec, H, list_elem_of_In, Hw.
Qed.

(** The singulars of the plural table are canonical words. *)
Lemma plural_table_values (k v : str) :
  plural_table !! k = Some v -> Forall canonical_word (split v).
Proof.
  intros H. apply elem_of_list_to_map_2 in H.
  repeat (apply elem_of_cons in H as [H|H];
          [injection H as -> ->; apply canonical_words_spec;
           vm_compute; reflexivity|]).
  inversion H.
Qed.

(** The words of a text after lowercasing, stripping and the punctuation
    substitution are canonical. *)
Lemma cleaned_words (x : str) :
  Forall canonical_word (split (sub_punct (strip (lower x)))).
Proof.
  pose proof (lower_lower_fixed x) as H.
  apply strip_Forall, sub_punct_kept in H.
  apply split_words in H.
  eapply Forall_impl; [exact H|].
  intros w [[Hne Hsp] HP]. split; [exact Hne|].
  rewrite Forall_forall in *. intros c Hc.
  destruct (HP c Hc). apply canonical_intro; auto.
Qed.

Lemma canonical_chars_join (ws : list str) :
  Forall canonical_word ws ->
  Forall (fun c => kept c = true /\ PyChar.lower c = c) (join [space] ws).
Proof.
  intros H. apply join_Forall; [split; reflexivity|].
  eapply Forall_impl; [exact H|]. intros w [_ Hw].
  eapply Forall_impl; [exact Hw|]. intros c Hc.
  apply canonical_elim in Hc. tauto.
Qed.

Lemma canonical_words_are_words (ws : list str) :
  Forall canonical_word ws -> Forall is_word ws.
Proof.
  intros H. eapply Forall_impl; [exact H|]. apply canonical_word_is_word.
Qed.

Lemma filter_Forall {A : Type} (P Q : A -> Prop)
    `{forall a, Decision (P a)} (l : list A) :
  Forall Q l -> Forall Q (filter P l).
Proof.
  rewrite !Forall_forall. intros HQ a Ha.
  apply list_elem_of_filter in Ha. apply HQ. tauto.
Qed.

Lemma filter_all {A : Type} (P : A -> Prop) `{forall a, Decision (P a)}
    (l : list A) :
  Forall P l -> filter P l = l.
Proof.
  induction 1 as [|a l Ha Hl IH]; [reflexivity|].
  rewrite filter_cons. destruct (decide (P a)); [|contradiction].
  rewrite IH. reflexivity.
Qed.

Lemma map_fixed {A : Type} (f : A -> A) (l : list A) :
  Forall (fun a => f a = a) l -> map f l = l.
Proof.
  induction 1 as [|a l Ha Hl IH]; [reflexivity|].
  simpl. rewrite Ha, IH. reflexivity.
Qed.

Section Idempotence.
Variable lemmatize : str -> str.
Variable self : t.

(** The lemmatiser maps a word to a word. *)
Hypothesis lemmatize_word : forall w, is_word w -> is_word (lemmatize w).

(** What [normalize] returns: words joined by single blanks, which
    [split] gives back, without stopwords when they were to be removed. *)
Lemma normalize_split (text : str) (r : bool) :
  exists ws,
    Forall is_word ws /\
    (r = true -> Forall (fun w => w ∉ stopwords self) ws) /\
    normalize lemmatize self text r = join [space] ws /\
    split (normalize lemmatize self text r) = ws.
Proof.
  unfold normalize. cbv zeta.
  set (t := replace_whole (plural_map self) _).
  assert (Hl : Forall is_word (map lemmatize (split t))).
  { apply Forall_forall. intros w Hw.
    apply list_elem_of_fmap in Hw as (v & -> & Hv).
    apply lemmatize_word.
    assert (H : Forall (fun w => is_word w /\ Forall (fun _ => True) w)
                       (split t)).
    { apply split_words, Forall_forall. intros; exact I. }
    rewrite Forall_forall in H. apply (H v Hv). }
  destruct r.
  - eexists. split; [|split; [|split; [reflexivity|]]].
    + apply Forall_forall. intros w Hw.
      apply list_elem_of_filter in Hw as [_ Hw].
      rewrite Forall_forall in Hl. apply Hl, Hw.
    + intros _. apply Forall_forall. intros w Hw.
      apply list_elem_of_filter in Hw as [Hw _]. exact Hw.
    + apply split_join. apply Forall_forall. intros w Hw.
      apply list_elem_of_filter in Hw as [_ Hw].
      rewrite Forall_forall in Hl. apply Hl, Hw.
  - eexists. split; [exact Hl|]. split; [discriminate|].
    split; [reflexivity|]. apply split_join, Hl.
Qed.


End Idempotence.

End NormalizerFacts.

(** ** The normaliser at concrete inputs *)

Module NormalizerExamples.
Import PyChar PyStr PyCharFacts PyStrFacts TextNormalizer NormalizerFacts.



(** The condition on the words of the result is needed as well: with a
    lemmatiser that shortens "ass" to "as" and "as" to "a", and the
    default tables, "ass" normalises to "as", which is no key of either
    table, and "as" normalises to "a". *)
Example normalize_not_idempotent_lemmas :
  normalize Sample.shortening Sample.normalizer (py "ass") false = py "as" /\
  synonyms Sample.normalizer !! py "as" = None /\
  plural_map Sample.normalizer !! py "as" = None /\
  normalize Sample.shortening Sample.normalizer
    (normalize Sample.shortening Sample.normalizer (py "ass") false) false =
    py "a".
Proof. repeat split; vm_compute; reflexivity. Qed.

(** C1 at a concrete input: a segment of two words is returned as one
    element with a blank in it, not as two tokens. *)
Theorem tokenize_ingredients_keeps_phrases :
  tokenize_ingredients Sample.lemmatize Sample.normalizer
    (py "2 cups chicken breast, rice") = [py "chicken breast"; py "rice"] /\
  Exists (fun tk => space ∈ tk)
    (tokenize_ingredients Sample.lemmatize Sample.normalizer
       (py "2 cups chicken breast, rice")).
Proof.
  split; [vm_compute; reflexivity|].
  apply Exists_exists. exists (py "chicken breast").
  split; [vm_compute|]; set_solver.
Qed.

(** C2 at concrete inputs: the phrase "chicken breast" gives the query
    tokens "chicken" and "breast" and the index token "chicken breast";
    the phrase "2 cups tomatoes" keeps its quantity and unit on the query
    path and loses them on the indexing path. *)
Theorem query_and_index_tokens_differ :
  RecipeIndexer.query_tokens Sample.lemmatize Sample.normalizer
    [py "chicken breast"] = [py "chicken"; py "breast"] /\
  tokenize_ingredients Sample.lemmatize Sample.normalizer
    (py "chicken breast") = [py "chicken breast"] /\
  RecipeIndexer.query_tokens Sample.lemmatize Sample.normalizer
    [py "2 cups tomatoes"] = [py "2"; py "cups"; py "tomatoes"] /\
  tokenize_ingredients Sample.lemmatize Sample.normalizer
    (py "2 cups tomatoes") = [py "tomato"].
Proof. repeat split; vm_compute; reflexivity. Qed.

End NormalizerExamples.

(** ** Lists *)

Module PyListFacts.
Import PyList.

Lemma slice_to_nonneg {A : Type} (k : Z) (l : list A) :
  (0 <= k)%Z -> slice_to k l = take (Z.to_nat k) l.
Proof.
  intros Hk. unfold slice_to.
  destruct (Z.leb_spec 0 k); [reflexivity|lia].
Qed.

Lemma slice_to_length {A : Type} (k : Z) (l : list A) :
  (0 <= k)%Z -> length (slice_to k l) = Nat.min (Z.to_nat k) (length l).
Proof. intros Hk. rewrite slice_to_nonneg by exact Hk. apply length_take. Qed.

Lemma slice_to_is_take {A : Type} (k : Z) (l : list A) :
  exists n, slice_to k l = take n l.
Proof. unfold slice_to. destruct (0 <=? k)%Z; eauto. Qed.

Lemma enumerate_from_lookup {A : Type} (l : list A) (n i : nat) (x : A) :
  (i, x) ∈ enumerate_from n l <-> n <= i /\ l !! (i - n) = Some x.
Proof.
  revert n. induction l as [|y l IH]; intros n; simpl.
  - split; [intros H; inversion H|intros [_ H]; discriminate].
  - rewrite elem_of_cons, IH. split.
    + intros [[= -> ->]|[Hle Hl]].
      * split; [lia|]. replace (n - n) with 0 by lia. reflexivity.
      * split; [lia|]. replace (i - n) with (S (i - S n)) by lia. exact Hl.
    + intros [Hle Hl]. destruct (decide (i = n)) as [->|Hne].
      * left. replace (n - n) with 0 in Hl by lia. simpl in Hl. congruence.
      * right. split; [lia|].
        replace (i - n) with (S (i - S n)) in Hl by lia. exact Hl.
Qed.

Lemma enumerate_from_length {A : Type} (l : list A) (n : nat) :
  length (enumerate_from n l) = length l.
Proof. revert n. induction l; intros n; simpl; [|rewrite IHl]; reflexivity. Qed.

Lemma enumerate_from_sorted {A : Type} (l : list A) (n : nat) :
  StronglySorted (fun a b => a.1 < b.1) (enumerate_from n l).
Proof.
  revert n. induction l as [|y l IH]; intros n; simpl; constructor.
  - apply IH.
  - apply Forall_forall. intros [i x] Hin.
    apply enumerate_from_lookup in Hin. simpl. lia.
Qed.

Section Sorted.
Context {A K : Type}.
Variable ltb : K -> K -> bool.
Variable key : A -> K.

Lemma insert_desc_perm (x : A) (l : list A) :
  insert_desc ltb key x l ≡ₚ x :: l.
Proof.
  induction l as [|y l IH]; simpl; [reflexivity|].
  destruct (ltb (key x) (key y)); [|reflexivity].
  rewrite IH. apply Permutation_swap.
Qed.

Lemma sorted_reverse_perm (l : list A) : sorted_reverse ltb key l ≡ₚ l.
Proof.
  unfold sorted_reverse. induction l as [|x l IH]; simpl; [reflexivity|].
  rewrite insert_desc_perm, IH. reflexivity.
Qed.

Lemma sorted_reverse_length (l : list A) :
  length (sorted_reverse ltb key l) = length l.
Proof. apply Permutation_length, sorted_reverse_perm. Qed.

(** [<] on keys is a strict weak order: asymmetric, and its complement is
    transitive. *)
Hypothesis ltb_asym : forall a b, ltb a b = true -> ltb b a = false.
Hypothesis ltb_negtrans :
  forall a b c, ltb a b = false -> ltb b c = false -> ltb a c = false.

(** [before] is the order of the input. *)
Variable before : A -> A -> Prop.

Local Abbreviation descending_stable := (PyList.descending_stable ltb key before).

Lemma insert_desc_sorted (x : A) (l : list A) :
  StronglySorted descending_stable l ->
  Forall (before x) l ->
  StronglySorted descending_stable (insert_desc ltb key x l).
Proof.
  induction 1 as [|y l Hl IH Hy]; intros Hx; simpl.
  - repeat constructor.
  - inversion Hx as [|? ? Hxy Hxl]; subst.
    destruct (ltb (key x) (key y)) eqn:E.
    + constructor; [apply IH, Hxl|].
      rewrite insert_desc_perm. constructor; [|exact Hy].
      split; [apply ltb_asym, E|congruence].
    + constructor; [constructor; assumption|].
      constructor; [split; [exact E|intros _; exact Hxy]|].
      rewrite Forall_forall in *. intros z Hz.
      split; [|intros _; apply Hxl, Hz].
      eapply ltb_negtrans; [exact E|]. apply (Hy z Hz).
Qed.

Lemma sorted_reverse_sorted (l : list A) :
  StronglySorted before l ->
  StronglySorted descending_stable (sorted_reverse ltb key l).
Proof.
  unfold sorted_reverse. induction 1 as [|x l Hl IH Hx]; simpl.
  - constructor.
  - apply insert_desc_sorted; [exact IH|].
    fold (sorted_reverse ltb key l). rewrite sorted_reverse_perm. exact Hx.
Qed.

End Sorted.

Lemma StronglySorted_take {A : Type} (R : A -> A -> Prop) (n : nat)
    (l : list A) :
  StronglySorted R l -> StronglySorted R (take n l).
Proof.
  intros H. revert n. induction H as [|x l Hl IH Hx]; intros [|n]; simpl;
    try constructor.
  - apply IH.
  - rewrite Forall_forall in *. intros y Hy. apply Hx.
    apply elem_of_take in Hy as (i & Hi & _).
    eapply list_elem_of_lookup_2, Hi.
Qed.

Lemma StronglySorted_lookup {A : Type} (R : A -> A -> Prop) (l : list A)
    (i j : nat) (x y : A) :
  StronglySorted R l -> i < j -> l !! i = Some x -> l !! j = Some y -> R x y.
Proof.
  intros H. revert i j. induction H as [|z l Hl IH Hz]; intros i j Hij Hi Hj.
  - discriminate.
  - destruct j as [|j]; [lia|]. destruct i as [|i]; simpl in *.
    + injection Hi as ->. rewrite Forall_forall in Hz.
      apply Hz. eapply list_elem_of_lookup_2, Hj.
    + apply (IH i j); [lia|assumption..].
Qed.

End PyListFacts.

(** ** Loading *)

Module LoaderFacts.
Import RecipeIndexer.

Section Facts.
Variable Score : Type.
Variable BM25 : Type.

Lemma validate_score (id : Z) (title : option str) (ingredients : list str)
    (instructions cuisine : option str) (tags : list str)
    (time_minutes : option Z) (recipe : Recipe.t Score) :
  Recipe.validate id title ingredients instructions cuisine tags
    time_minutes = Ok recipe ->
  Recipe.score recipe = None /\ Recipe.id recipe = id.
Proof.
  unfold Recipe.validate.
  destruct title, instructions, cuisine; try discriminate.
  intros [= <-]. split; reflexivity.
Qed.

(** An accepted row has an integer in its [id] column, which is the
    recipe's id, and the recipe carries no score. *)
Lemma parse_row_ok (r : row) (recipe : Recipe.t Score) :
  parse_row Score r = Ok recipe ->
  row_id r = Some (Recipe.id recipe) /\ Recipe.score recipe = None.
Proof.
  unfold parse_row.
  destruct (getitem r (py "ingredients")) as [v1|]; cbn [bind]; [|intros [=]].
  destruct (split_strip v1) as [ing|]; cbn [bind]; [|intros [=]].
  destruct (getitem r (py "tags")) as [v2|]; cbn [bind]; [|intros [=]].
  destruct (split_strip v2) as [tg|]; cbn [bind]; [|intros [=]].
  destruct (getitem r (py "id")) as [v3|] eqn:E1; cbn [bind]; [|intros [=]].
  destruct (int v3) as [n|] eqn:E2; cbn [bind]; [|intros [=]].
  destruct (getitem r (py "title")) as [ti|]; cbn [bind]; [|intros [=]].
  destruct (getitem r (py "instructions")) as [ins|]; cbn [bind]; [|intros [=]].
  destruct (getitem r (py "cuisine")) as [cu|]; cbn [bind]; [|intros [=]].
  intros H. apply validate_score in H as [Hs Hid].
  split; [|exact Hs]. rewrite Hid.
  unfold row_id. unfold getitem, of_option in E1.
  destruct (r !! py "id") as [v|]; [|discriminate].
  injection E1 as ->. unfold int in E2.
  destruct v3 as [s|]; [|discriminate].
  destruct (PyInt.of_str s); [|discriminate].
  injection E2 as ->. reflexivity.
Qed.

Lemma accepted_cons_ok (r : row) (rows : list row) (recipe : Recipe.t Score) :
  parse_row Score r = Ok recipe ->
  accepted Score (r :: rows) = recipe :: accepted Score rows.
Proof. intros H. unfold accepted. simpl. rewrite H. reflexivity. Qed.

Lemma accepted_cons_raise (r : row) (rows : list row) (e : exn) :
  parse_row Score r = Raise e ->
  accepted Score (r :: rows) = accepted Score rows.
Proof. intros H. unfold accepted. simpl. rewrite H. reflexivity. Qed.

Lemma accepted_score (rows : list row) :
  Forall (fun recipe => Recipe.score recipe = None) (accepted Score rows).
Proof.
  induction rows as [|r rows IH]; [constructor|].
  destruct (parse_row Score r) as [recipe|e] eqn:E.
  - rewrite (accepted_cons_ok _ _ _ E). constructor; [|exact IH].
    apply (parse_row_ok _ _ E).
  - rewrite (accepted_cons_raise _ _ _ E). exact IH.
Qed.

(** The ids of the accepted rows are among the integers of the [id]
    column, in order. *)
Lemma accepted_ids_sublist (rows : list row) :
  sublist (map Recipe.id (accepted Score rows)) (omap row_id rows).
Proof.
  induction rows as [|r rows IH]; [constructor|].
  destruct (parse_row Score r) as [recipe|e] eqn:E.
  - rewrite (accepted_cons_ok _ _ _ E). simpl.
    destruct (parse_row_ok _ _ E) as [-> _]. constructor. exact IH.
  - rewrite (accepted_cons_raise _ _ _ E). simpl.
    destruct (row_id r); [constructor|]; exact IH.
Qed.

Local Abbreviation caught := (RecipeIndexer.caught Score).

Lemma skipped_print_warning (e : exn) (w : world Score) :
  skipped (stdout (print (SkippingInvalidRow e) w)) =
  skipped (stdout w) ++ [SkippingInvalidRow e].
Proof.
  unfold skipped, print. simpl. rewrite filter_app. reflexivity.
Qed.

(** What the loop over the rows does when it comes to its end: the
    accepted recipes are allocated behind the heap, in order, the
    references to them are appended to [self.recipes], and one warning is
    printed per row that raised a caught exception. *)
Lemma load_rows_ok (rows : list row) (self self' : t BM25)
    (w w' : world Score) :
  load_rows rows self w = Ok (self', w') ->
  recipes self' =
    recipes self ++ seq (length (heap w)) (length (accepted Score rows)) /\
  heap w' = heap w ++ accepted Score rows /\
  bm25 self' = bm25 self /\
  tokenized_corpus self' = tokenized_corpus self /\
  length (skipped (stdout w')) =
    length (skipped (stdout w)) + length (filter (fun r => Is_true (caught r)) rows).
Proof.
  revert self w. induction rows as [|r rows IH]; intros self w H.
  - injection H as <- <-. simpl. rewrite !app_nil_r. repeat split; lia.
  - simpl in H. rewrite filter_cons.
    destruct (parse_row Score r) as [recipe|e] eqn:E.
    + assert (Hc : caught r = false) by (unfold RecipeIndexer.caught; rewrite E; reflexivity).
      destruct (decide (Is_true (caught r))) as [Hd|_];
        [rewrite Hc in Hd; destruct Hd|].
      rewrite (accepted_cons_ok _ _ _ E).
      apply IH in H as (Hr & Hh & Hb & Ht & Hs).
      cbn [recipes heap stdout bm25 tokenized_corpus] in *.
      rewrite Hr, Hh, length_app, <- !app_assoc. cbn [length app seq].
      replace (length (heap w) + 1) with (S (length (heap w))) by lia.
      repeat split; assumption.
    + rewrite (accepted_cons_raise _ _ _ E).
      destruct e; try discriminate H;
        (assert (Hc : caught r = true)
           by (unfold RecipeIndexer.caught; rewrite E; reflexivity));
        (destruct (decide (Is_true (caught r))) as [_|Hd];
           [|rewrite Hc in Hd; destruct Hd; exact I]);
        apply IH in H as (Hr & Hh & Hb & Ht & Hs);
        rewrite skipped_print_warning, length_app in Hs;
        cbn [recipes heap stdout bm25 tokenized_corpus print length] in *;
        repeat split; try assumption; lia.
Qed.

End Facts.

End LoaderFacts.

(** ** The index *)

Module IndexFacts.
Import PyList PyListFacts RecipeIndexer LoaderFacts Client.

Section Facts.
Variable Score : Type.
Variable score_ltb : Score -> Score -> bool.
Variable BM25 : Type.
Variable BM25Okapi : list (list str) -> result BM25.
Variable get_scores : BM25 -> list str -> list Score.
Variable lemmatize : str -> str.
Variable normalizer : TextNormalizer.t.

Local Abbreviation built := (RecipeIndexer.built BM25Okapi).
Local Abbreviation ranked := (RecipeIndexer.ranked score_ltb).

Lemma built_lookup (base : nat) (news : list (Recipe.t Score))
    (self : t BM25) (w : world Score) (i : nat) :
  built base news self w -> i < length news ->
  recipes self !! i = Some (base + i) /\ heap w !! (base + i) = news !! i.
Proof.
  intros (Hr & (pre & post & Hh & Hp) & _) Hi. split.
  - rewrite Hr. apply lookup_seq_lt, Hi.
  - rewrite Hh, <- Hp.
    rewrite lookup_app_r by lia.
    replace (length pre + i - length pre) with i by lia.
    apply lookup_app_l, Hi.
Qed.

Lemma built_grow (base : nat) (news extra : list (Recipe.t Score))
    (self : t BM25) (w : world Score) :
  built base news self w ->
  built base news self (World (heap w ++ extra) (stdout w)).
Proof.
  intros (Hr & (pre & post & Hh & Hp) & Hb & Ht).
  repeat split; try assumption.
  exists pre, (post ++ extra). split; [|exact Hp].
  simpl. rewrite Hh, <- !app_assoc. reflexivity.
Qed.

Lemma built_bound (base : nat) (news : list (Recipe.t Score))
    (self : t BM25) (w : world Score) :
  built base news self w -> base + length news <= length (heap w).
Proof.
  intros (_ & (pre & post & Hh & Hp) & _).
  rewrite Hh, !length_app. lia.
Qed.

Lemma omap_lookup_seq (pre news post : list (Recipe.t Score)) :
  omap (fun l => (pre ++ news ++ post) !! l)
       (seq (length pre) (length news)) = news.
Proof.
  revert pre. induction news as [|r news IH]; intros pre; [reflexivity|].
  simpl. rewrite lookup_app_r by lia.
  replace (length pre - length pre) with 0 by lia. simpl.
  f_equal. specialize (IH (pre ++ [r])).
  rewrite length_app in IH. simpl in IH.
  replace (length pre + 1) with (S (length pre)) in IH by lia.
  rewrite <- app_assoc in IH. exact IH.
Qed.

(** The stored collection of a constructed index is [news]. *)
Lemma built_stored (base : nat) (news : list (Recipe.t Score))
    (self : t BM25) (w : world Score) :
  built base news self w -> stored self w = news.
Proof.
  intros (Hr & (pre & post & Hh & Hp) & _).
  unfold stored. rewrite Hr, Hh, <- Hp. apply omap_lookup_seq.
Qed.

Lemma tokenize_all_length (w : world Score) (ls : list nat)
    (corpus : list (list str)) :
  tokenize_all lemmatize normalizer w ls = Ok corpus ->
  length corpus = length ls.
Proof.
  revert corpus. induction ls as [|l ls IH]; intros corpus; simpl.
  - intros [= <-]. reflexivity.
  - destruct (deref w l); cbn [bind]; [|intros [=]].
    destruct (tokenize_all lemmatize normalizer w ls); cbn [bind];
      [|intros [=]].
    intros [= <-]. simpl. f_equal. apply IH. reflexivity.
Qed.

(** What a successful construction leaves: the accepted rows as the stored
    collection, allocated behind the heap it started from. *)
Lemma init_built (source : option (list row)) (w0 w : world Score)
    (self : t BM25) :
  __init__ BM25Okapi lemmatize normalizer source w0 = Ok (self, w) ->
  exists rows,
    source = Some rows /\
    built (length (heap w0)) (accepted Score rows) self w /\
    heap w = heap w0 ++ accepted Score rows.
Proof.
  unfold __init__, _load_recipes.
  destruct source as [rows|]; cbn [bind]; [|intros [=]].
  destruct (load_rows rows _ w0) as [[self1 w1]|] eqn:E; cbn [bind];
    [|intros [=]].
  apply load_rows_ok in E as (Hr & Hh & _ & _ & _). simpl in Hr.
  unfold _build_index. cbn [recipes heap print].
  destruct (tokenize_all _ _ _ _) as [corpus|] eqn:Et; cbn [bind];
    [|intros [=]].
  destruct (BM25Okapi corpus) as [index|] eqn:Eb; cbn [bind]; [|intros [=]].
  intros [= <- <-]. exists rows. split; [reflexivity|].
  apply tokenize_all_length in Et. rewrite Hr, length_seq in Et.
  split; [|exact Hh].
  repeat split; cbn [recipes heap print bm25 tokenized_corpus].
  - exact Hr.
  - exists (heap w0), []. rewrite app_nil_r. split; [exact Hh|reflexivity].
  - exists index. split; [reflexivity|exact Eb].
  - exact Et.
Qed.


(** The loop of [search]: the results are new objects behind the heap, one
    per index, each a copy with its score; nothing else changes. *)
Lemma build_results_ok (base : nat) (news : list (Recipe.t Score))
    (self : t BM25) (scores : list Score) (idxs : list nat)
    (w : world Score) :
  built base news self w ->
  Forall (fun idx => idx < length news /\ idx < length scores) idxs ->
  exists copies,
    build_results self scores idxs w =
      Ok (seq (length (heap w)) (length idxs),
          World (heap w ++ copies) (stdout w)) /\
    Forall2 (copy_of news scores) idxs copies.
Proof.
  intros Hb Hidx. revert w Hb.
  induction Hidx as [|idx idxs [Hn Hs] _ IH]; intros w Hb.
  - exists []. split; [|constructor].
    simpl. rewrite app_nil_r. destruct w; reflexivity.
  - destruct (built_lookup _ _ _ _ idx Hb Hn) as [Hl Hh].
    destruct (lookup_lt_is_Some_2 news idx Hn) as [r Hr].
    destruct (lookup_lt_is_Some_2 scores idx Hs) as [s Hsc].
    pose (c := Recipe.set_score r s).
    specialize (IH (World (heap w ++ [c]) (stdout w))
                   (built_grow _ _ [c] _ _ Hb)).
    destruct IH as (copies & Hres & Hcopies).
    exists (c :: copies). split.
    + cbn [build_results]. rewrite Hl. cbn [of_option bind].
      unfold deref. rewrite Hh, Hr. cbn [of_option bind alloc].
      rewrite Hsc. cbn [of_option bind]. unfold store. cbn [heap stdout].
      replace (<[length (heap w) := Recipe.set_score r s]> (heap w ++ [r]))
        with (heap w ++ [c]).
      * rewrite Hres. cbn [bind heap stdout length seq].
        rewrite length_app, <- app_assoc. cbn [length app].
        replace (length (heap w) + 1) with (S (length (heap w))) by lia.
        reflexivity.
      * rewrite insert_app_r_alt by lia.
        replace (length (heap w) - length (heap w)) with 0 by lia.
        reflexivity.
    + constructor; [|exact Hcopies]. exists r, s. auto.
Qed.

(** The scorer returns one score per document of the corpus it was made
    from. *)
Hypothesis get_scores_length :
  forall corpus index query,
    BM25Okapi corpus = Ok index ->
    length (get_scores index query) = length corpus.

Lemma top_indices_ranked (scores : list Score) (k : Z) :
  top_indices score_ltb scores k = map fst (ranked scores k).
Proof.
  unfold top_indices, RecipeIndexer.ranked, slice_to. rewrite length_map.
  destruct (0 <=? k)%Z; apply firstn_map.
Qed.

Lemma ranked_lookup (scores : list Score) (k : Z) (idx : nat) (s : Score) :
  (idx, s) ∈ ranked scores k -> scores !! idx = Some s.
Proof.
  unfold RecipeIndexer.ranked. destruct (slice_to_is_take k
    (sorted_reverse score_ltb snd (enumerate_from 0 scores))) as [n ->].
  intros H. apply elem_of_take in H as (i & Hi & _).
  apply list_elem_of_lookup_2 in Hi.
  rewrite sorted_reverse_perm in Hi.
  apply enumerate_from_lookup in Hi as [_ Hi].
  replace (idx - 0) with idx in Hi by lia. exact Hi.
Qed.

Lemma ranked_length (scores : list Score) (k : Z) :
  (0 <= k)%Z ->
  length (ranked scores k) = Nat.min (Z.to_nat k) (length scores).
Proof.
  intros Hk. unfold RecipeIndexer.ranked. rewrite slice_to_length by exact Hk.
  rewrite sorted_reverse_length, enumerate_from_length. reflexivity.
Qed.

(** One call of [search] on a constructed index: it returns; the results
    are new objects behind the heap; without query tokens there are none,
    and otherwise they are the copies of the ranked recipes. *)
Lemma search_ok (base : nat) (news : list (Recipe.t Score))
    (self : t BM25) (w : world Score) (ingredients : list str) (k : Z) :
  built base news self w ->
  exists copies,
    search score_ltb get_scores lemmatize normalizer self ingredients k w =
      Ok (seq (length (heap w)) (length copies),
          World (heap w ++ copies) (stdout w)) /\
    (query_tokens lemmatize normalizer ingredients = [] -> copies = []) /\
    (query_tokens lemmatize normalizer ingredients <> [] ->
     exists index,
       bm25 self = Some index /\
       length (get_scores index
                 (query_tokens lemmatize normalizer ingredients)) =
       length news /\
       Forall2
         (copy_of news
            (get_scores index
               (query_tokens lemmatize normalizer ingredients)))
         (map fst
            (ranked (get_scores index
                       (query_tokens lemmatize normalizer ingredients)) k))
         copies).
Proof.
  intros Hb. pose proof Hb as (_ & _ & (index & Hi & Hok) & Hlen).
  unfold search. rewrite Hi.
  destruct (query_tokens lemmatize normalizer ingredients) as [|tk tks] eqn:Eq.
  - exists []. split; [|split; [reflexivity|congruence]].
    simpl. rewrite app_nil_r. destruct w; reflexivity.
  - set (scores := get_scores index (tk :: tks)).
    assert (Hsl : length scores = length news).
    { unfold scores. rewrite (get_scores_length _ _ _ Hok). exact Hlen. }
    destruct (build_results_ok base news self scores
                (top_indices score_ltb scores k) w Hb)
      as (copies & Hres & Hcopies).
    { rewrite top_indices_ranked. apply Forall_forall. intros idx Hin.
      apply list_elem_of_fmap in Hin as ([idx' s] & -> & Hin).
      apply ranked_lookup, lookup_lt_Some in Hin. simpl. lia. }
    exists copies. rewrite Hres.
    rewrite (Forall2_length _ _ _ Hcopies).
    split; [reflexivity|]. split; [discriminate|]. intros _.
    exists index. rewrite <- top_indices_ranked. auto.
Qed.

Lemma run_searches_ok (base : nat) (news : list (Recipe.t Score))
    (self : t BM25) (calls : list (list str * Z)) (w : world Score) :
  built base news self w ->
  exists extra,
    run_searches score_ltb get_scores lemmatize normalizer self calls w =
      Ok (World (heap w ++ extra) (stdout w)).
Proof.
  revert w. induction calls as [|[ingredients k] calls IH]; intros w Hb.
  - exists []. simpl. rewrite app_nil_r. destruct w; reflexivity.
  - destruct (search_ok base news self w ingredients k Hb)
      as (copies & Hs & _).
    destruct (IH _ (built_grow _ _ copies _ _ Hb)) as (extra & Hrun).
    exists (copies ++ extra). cbn [run_searches]. rewrite Hs.
    cbn [bind]. rewrite Hrun. cbn [heap stdout]. rewrite app_assoc.
    reflexivity.
Qed.

(** [get_recipe_by_id] on a constructed index: the reference to the first
    stored recipe with that id. *)
Lemma find_by_id_ok (pre news post : list (Recipe.t Score))
    (w : world Score) (recipe_id : Z) :
  heap w = pre ++ news ++ post ->
  find_by_id w (seq (length pre) (length news)) recipe_id =
  Ok ((fun hit => length pre + hit.1) <$>
        list_find (fun r => Recipe.id r = recipe_id) news).
Proof.
  revert pre. induction news as [|r news IH]; intros pre Hh; [reflexivity|].
  cbn [length seq find_by_id]. unfold deref. rewrite Hh.
  rewrite lookup_app_r by lia.
  replace (length pre - length pre) with 0 by lia.
  cbn [lookup list_lookup app of_option bind].
  cbn [list_find]. destruct (decide (Recipe.id r = recipe_id)) as [Heq|Hne].
  - simpl. f_equal. f_equal. lia.
  - specialize (IH (pre ++ [r])). rewrite length_app in IH. simpl in IH.
    replace (length pre + 1) with (S (length pre)) in IH by lia.
    rewrite IH by (rewrite Hh, <- app_assoc; reflexivity).
    destruct (list_find _ news) as [[i x]|]; simpl; [|reflexivity].
    f_equal. f_equal. lia.
Qed.


Lemma init_then_searches (source : option (list row)) (w0 w1 : world Score)
    (self : t BM25) (calls : list (list str * Z)) :
  __init__ BM25Okapi lemmatize normalizer source w0 = Ok (self, w1) ->
  exists rows extra,
    source = Some rows /\
    heap w1 = heap w0 ++ accepted Score rows /\
    built (length (heap w0)) (accepted Score rows) self w1 /\
    run_searches score_ltb get_scores lemmatize normalizer self calls w1 =
      Ok (World (heap w1 ++ extra) (stdout w1)) /\
    built (length (heap w0)) (accepted Score rows) self
          (World (heap w1 ++ extra) (stdout w1)).
Proof.
  intros Hinit. apply init_built in Hinit as (rows & -> & Hb & Hh).
  destruct (run_searches_ok _ _ self calls w1 Hb) as (extra & Hrun).
  exists rows, extra.
  split; [reflexivity|]. split; [exact Hh|]. split; [exact Hb|].
  split; [exact Hrun|]. apply built_grow, Hb.
Qed.

(** C5: on a constructed index, after any calls of [search], a call with
    [k >= 0] returns at most [k] recipes, and exactly [min(k, corpusSize)]
    when the query has a token at all (so also when it overlaps with at
    least [k] documents). *)
Theorem search_top_k (source : option (list row)) (w0 w1 w : world Score)
    (self : t BM25) (calls : list (list str * Z))
    (ingredients : list str) (k : Z) :
  __init__ BM25Okapi lemmatize normalizer source w0 = Ok (self, w1) ->
  run_searches score_ltb get_scores lemmatize normalizer self calls w1 =
    Ok w ->
  (0 <= k)%Z ->
  exists results w',
    search score_ltb get_scores lemmatize normalizer self ingredients k w =
      Ok (results, w') /\
    (Z.of_nat (length results) <= k)%Z /\
    (query_tokens lemmatize normalizer ingredients <> [] ->
     Z.of_nat (length results) =
     Z.min k (Z.of_nat (get_recipe_count self))).
Proof.
  intros Hinit Hrun Hk.
  destruct (init_then_searches _ _ _ _ calls Hinit)
    as (rows & extra & _ & _ & Hb1 & Hrun' & Hb).
  rewrite Hrun in Hrun'. injection Hrun' as ->.
  destruct (search_ok _ _ self _ ingredients k Hb)
    as (copies & Hs & Hnone & Hsome).
  eexists _, _. split; [exact Hs|]. rewrite length_seq.
  destruct (query_tokens lemmatize normalizer ingredients) as [|tk tks] eqn:E.
  - rewrite Hnone by reflexivity. simpl. split; [lia|congruence].
  - destruct Hsome as (index & _ & Hlen & Hcopies); [discriminate|].
    apply Forall2_length in Hcopies.
    rewrite length_map, ranked_length in Hcopies by exact Hk.
    unfold get_recipe_count. destruct Hb as (Hr & _).
    rewrite Hr, length_seq, <- Hcopies, Hlen. split; [lia|]. intros _. lia.
Qed.

(** C9: a constructed index is not changed by searching.  After any calls
    of [search] the stored objects are what they were after loading; a
    further call returns new objects, each with the fields of a stored
    recipe, which has no score, and with its own score field populated,
    and leaves the stored objects alone; [get_recipe_by_id] returns the
    stored object for an id of the corpus, which has that id and no
    score, and [None] for any other id. *)
Theorem search_leaves_corpus (source : option (list row))
    (w0 w1 : world Score) (self : t BM25) (calls : list (list str * Z)) :
  __init__ BM25Okapi lemmatize normalizer source w0 = Ok (self, w1) ->
  exists w,
    run_searches score_ltb get_scores lemmatize normalizer self calls w1 =
      Ok w /\
    (forall l, l ∈ recipes self -> heap w !! l = heap w1 !! l) /\
    (forall ingredients k, exists results w',
       search score_ltb get_scores lemmatize normalizer self ingredients k w =
         Ok (results, w') /\
       (forall l, l ∈ recipes self -> heap w' !! l = heap w !! l) /\
       Forall (fun l' =>
                 (l' ∉ recipes self) /\
                 exists l r s c,
                   l ∈ recipes self /\ heap w !! l = Some r /\
                   Recipe.score r = None /\
                   heap w' !! l' = Some c /\
                   c = Recipe.set_score r s /\ scored_copy r s c)
              results) /\
    (forall recipe_id,
       ((exists r, r ∈ stored self w /\ Recipe.id r = recipe_id) ->
        exists l r,
          get_recipe_by_id self recipe_id w = Ok (Some l) /\
          l ∈ recipes self /\
          heap w !! l = Some r /\ heap w1 !! l = Some r /\
          Recipe.id r = recipe_id /\ Recipe.score r = None) /\
       ((forall r, r ∈ stored self w -> Recipe.id r <> recipe_id) ->
        get_recipe_by_id self recipe_id w = Ok None)).
Proof.
  intros Hinit.
  destruct (init_then_searches _ _ _ _ calls Hinit)
    as (rows & extra & _ & Hh1 & Hb1 & Hrun & Hb).
  set (news := accepted Score rows) in *.
  set (base := length (heap w0)) in *.
  remember (World (heap w1 ++ extra) (stdout w1)) as w eqn:Ew.
  assert (Hw : heap w = heap w1 ++ extra) by (rewrite Ew; reflexivity).
  assert (Hsc : forall r, r ∈ news -> Recipe.score r = None).
  { apply Forall_forall, accepted_score. }
  clearbody news base.
  pose proof (built_bound _ _ _ _ Hb1) as Hbound1.
  pose proof (built_bound _ _ _ _ Hb) as Hbound.
  assert (Hrec : forall l, l ∈ recipes self <-> base <= l < base + length news).
  { intros l. destruct Hb as (Hr & _). rewrite Hr. apply elem_of_seq. }
  assert (Hframe : forall l, l ∈ recipes self -> heap w !! l = heap w1 !! l).
  { intros l Hl. apply Hrec in Hl. rewrite Hw. apply lookup_app_l. lia. }
  exists w. split; [exact Hrun|]. split; [exact Hframe|]. split.
  - intros ingredients k.
    destruct (search_ok _ _ self _ ingredients k Hb)
      as (copies & Hs & Hnone & Hsome).
    eexists _, _. split; [exact Hs|]. split.
    + intros l Hl. apply Hrec in Hl. cbn [heap]. apply lookup_app_l. lia.
    + apply Forall_forall. intros l' Hl'. apply elem_of_seq in Hl'. split.
      * rewrite Hrec. lia.
      * destruct (query_tokens lemmatize normalizer ingredients) eqn:E.
        { rewrite Hnone in Hl' by reflexivity. simpl in Hl'. lia. }
        destruct Hsome as (index & _ & _ & Hcopies); [discriminate|].
        set (i := l' - length (heap w)).
        destruct (lookup_lt_is_Some_2 copies i) as [c Hc]; [lia|].
        destruct (Forall2_lookup_r _ _ _ _ _ Hcopies Hc)
          as (idx & Hidx & r & s & Hr & _ & ->).
        apply lookup_lt_Some in Hr as Hlt.
        destruct (built_lookup _ _ _ _ idx Hb Hlt) as [_ Hheap].
        exists (base + idx), r, s, (Recipe.set_score r s).
        split; [apply Hrec; lia|].
        split; [rewrite Hheap; exact Hr|].
        split; [apply Hsc; eapply list_elem_of_lookup_2, Hr|].
        split; [cbn [heap]; rewrite lookup_app_r by lia; exact Hc|].
        split; [reflexivity|]. repeat split.
  - intros recipe_id. rewrite (built_stored _ _ _ _ Hb).
    pose proof Hb as (Hr & (pre & post & Hh & Hp) & _).
    assert (Hget : get_recipe_by_id self recipe_id w =
                   Ok ((fun hit => base + hit.1) <$>
                         list_find (fun r => Recipe.id r = recipe_id) news)).
    { unfold get_recipe_by_id. rewrite Hr, <- Hp.
      apply (find_by_id_ok pre news post w recipe_id Hh). }
    rewrite Hget. clear Hget.
    destruct (list_find _ news) as [[i r]|] eqn:Ef.
    + apply list_find_Some in Ef as (Hi & Hid & _).
      apply lookup_lt_Some in Hi as Hlt.
      destruct (built_lookup _ _ _ _ i Hb Hlt) as [_ Hheap].
      assert (Hin : base + i ∈ recipes self) by (apply Hrec; lia).
      split.
      * intros _. exists (base + i), r.
        split; [reflexivity|]. split; [exact Hin|].
        split; [rewrite Hheap; exact Hi|].
        split; [rewrite <- (Hframe _ Hin), Hheap; exact Hi|].
        split; [exact Hid|].
        apply Hsc. eapply list_elem_of_lookup_2, Hi.
      * intros Hnot. exfalso. apply (Hnot r); [|exact Hid].
        eapply list_elem_of_lookup_2, Hi.
    + apply list_find_None in Ef. rewrite Forall_forall in Ef. split.
      * intros (r & Hin & Hid). exfalso. apply (Ef r Hin Hid).
      * intros _. reflexivity.
Qed.


(** C10 (as amended): the build step takes the ids as the rows give them.
    When the integers in the [id] column of the source are pairwise
    distinct, so are the ids of the loaded collection. *)
Theorem loaded_ids_distinct (rows : list row) (w0 w : world Score)
    (self : t BM25) :
  __init__ BM25Okapi lemmatize normalizer (Some rows) w0 = Ok (self, w) ->
  NoDup (omap row_id rows) ->
  NoDup (map Recipe.id (stored self w)).
Proof.
  intros Hinit Hnd.
  apply init_built in Hinit as (rows' & [= <-] & Hb & _).
  rewrite (built_stored _ _ _ _ Hb).
  eapply sublist_NoDup; [exact Hnd|]. apply accepted_ids_sublist.
Qed.

(** C7 at a concrete input, a source with a header and no rows: the
    construction hands the empty corpus to the scorer's constructor with
    no guard of its own, and fails when that raises. *)
Theorem init_without_rows (w0 : world Score) :
  __init__ BM25Okapi lemmatize normalizer (Some []) w0 =
  match BM25Okapi [] with
  | Ok index => Ok (Build [] (Some index) [], print (Loaded 0) w0)
  | Raise e => Raise e
  end.
Proof.
  unfold __init__, _load_recipes, _build_index. simpl.
  destruct (BM25Okapi []); reflexivity.
Qed.

Section Order.
(** [<] on scores is a strict weak order, as it is on floats that are not
    NaN. *)
Hypothesis score_ltb_asym :
  forall a b, score_ltb a b = true -> score_ltb b a = false.
Hypothesis score_ltb_negtrans :
  forall a b c,
    score_ltb a b = false -> score_ltb b c = false -> score_ltb a c = false.

Lemma ranked_sorted (scores : list Score) (k : Z) :
  StronglySorted
    (descending_stable score_ltb snd (fun a b => a.1 < b.1))
    (ranked scores k).
Proof.
  unfold RecipeIndexer.ranked.
  destruct (slice_to_is_take k
    (sorted_reverse score_ltb snd (enumerate_from 0 scores))) as [n ->].
  apply StronglySorted_take.
  apply sorted_reverse_sorted; [assumption..|].
  apply enumerate_from_sorted.
Qed.


End Order.

End Facts.
End IndexFacts.

(** ** The index at concrete inputs *)

Module IndexExamples.
Import RecipeIndexer IndexFacts.

Lemma sample_scores_length (corpus : list (list str)) (index : Sample.BM25)
    (query : list str) :
  Sample.BM25Okapi corpus = Ok index ->
  length (Sample.get_scores index query) = length corpus.
Proof.
  destruct corpus; [discriminate|]. intros [= <-].
  unfold Sample.get_scores. apply length_map.
Qed.

Lemma Z_ltb_asym (a b : Z) : (a <? b)%Z = true -> (b <? a)%Z = false.
Proof. lia. Qed.

Lemma Z_ltb_negtrans (a b c : Z) :
  (a <? b)%Z = false -> (b <? c)%Z = false -> (a <? c)%Z = false.
Proof. lia. Qed.

Lemma sample_loaded :
  Sample.init (Some [Sample.chicken_rice; Sample.tomato_pasta]) =
  Ok (Sample.loaded.1, Sample.loaded.2).
Proof. vm_compute. reflexivity. Qed.

(** C5 at the corpus of the example: one result for [k = 1]. *)
Lemma search_top_k_sample :
  exists results w',
    search Z.ltb Sample.get_scores Sample.lemmatize Sample.normalizer
      Sample.loaded.1 [py "chicken"; py "rice"] 1 Sample.loaded.2 =
      Ok (results, w') /\
    (Z.of_nat (length results) <= 1)%Z /\
    (query_tokens Sample.lemmatize Sample.normalizer
       [py "chicken"; py "rice"] <> [] ->
     Z.of_nat (length results) =
     Z.min 1 (Z.of_nat (get_recipe_count Sample.loaded.1))).
Proof.
  apply (search_top_k Z Z.ltb Sample.BM25 Sample.BM25Okapi Sample.get_scores
           Sample.lemmatize Sample.normalizer sample_scores_length
           (Some [Sample.chicken_rice; Sample.tomato_pasta])
           Sample.empty_world Sample.loaded.2 Sample.loaded.2
           Sample.loaded.1 []).
  - exact sample_loaded.
  - reflexivity.
  - lia.
Defined.


(** C9 at the corpus of the example, after two searches. *)
Lemma search_leaves_corpus_sample :
  exists w,
    Client.run_searches Z.ltb Sample.get_scores Sample.lemmatize
      Sample.normalizer Sample.loaded.1
      [([py "chicken"], 5%Z); ([py "tomato"; py "basil"], 1%Z)]
      Sample.loaded.2 = Ok w /\
    (forall l, l ∈ recipes Sample.loaded.1 ->
               heap w !! l = heap Sample.loaded.2 !! l) /\
    (forall ingredients k, exists results w',
       search Z.ltb Sample.get_scores Sample.lemmatize Sample.normalizer
         Sample.loaded.1 ingredients k w = Ok (results, w') /\
       (forall l, l ∈ recipes Sample.loaded.1 -> heap w' !! l = heap w !! l) /\
       Forall (fun l' =>
                 (l' ∉ recipes Sample.loaded.1) /\
                 exists l r s c,
                   l ∈ recipes Sample.loaded.1 /\ heap w !! l = Some r /\
                   Recipe.score r = None /\
                   heap w' !! l' = Some c /\
                   c = Recipe.set_score r s /\ scored_copy r s c)
              results) /\
    (forall recipe_id,
       ((exists r, r ∈ stored Sample.loaded.1 w /\ Recipe.id r = recipe_id) ->
        exists l r,
          get_recipe_by_id Sample.loaded.1 recipe_id w = Ok (Some l) /\
          l ∈ recipes Sample.loaded.1 /\
          heap w !! l = Some r /\ heap Sample.loaded.2 !! l = Some r /\
          Recipe.id r = recipe_id /\ Recipe.score r = None) /\
       ((forall r, r ∈ stored Sample.loaded.1 w -> Recipe.id r <> recipe_id) ->
        get_recipe_by_id Sample.loaded.1 recipe_id w = Ok None)).
Proof.
  apply (search_leaves_corpus Z Z.ltb Sample.BM25 Sample.BM25Okapi
           Sample.get_scores Sample.lemmatize Sample.normalizer
           sample_scores_length
           (Some [Sample.chicken_rice; Sample.tomato_pasta])
           Sample.empty_world).
  exact sample_loaded.
Defined.

(** The lookups of the specification's example: id 1 is the Chicken Rice
    recipe, stored without a score, also after the search; id 999 is not
    found. *)
Example get_recipe_by_id_sample :
  get_recipe_by_id Sample.loaded.1 1 Sample.searched.2 = Ok (Some 0) /\
  Recipe.title <$> heap Sample.searched.2 !! 0 = Some (py "Chicken Rice") /\
  Recipe.score <$> heap Sample.searched.2 !! 0 = Some None /\
  get_recipe_by_id Sample.loaded.1 999 Sample.searched.2 = Ok None.
Proof. repeat split; vm_compute; reflexivity. Qed.

(** The ranking of the specification's example: the query "chicken",
    "rice" ranks recipe 1 before recipe 2 (with the sample scorer). *)
Example search_sample :
  (fun l => Recipe.id <$> heap Sample.searched.2 !! l) <$> Sample.searched.1
  = [Some 1%Z; Some 2%Z].
Proof. vm_compute. reflexivity. Qed.

(** C10, an instance of the amended statement. *)
Lemma loaded_ids_distinct_sample :
  NoDup (map Recipe.id (stored Sample.loaded.1 Sample.loaded.2)).
Proof.
  apply (loaded_ids_distinct Z Sample.BM25 Sample.BM25Okapi Sample.lemmatize
           Sample.normalizer [Sample.chicken_rice; Sample.tomato_pasta]
           Sample.empty_world).
  - exact sample_loaded.
  - apply (bool_decide_unpack _). vm_compute. exact I.
Defined.

(** C10 fails as stated: two rows with the id 1 are both accepted, and the
    loaded collection holds the id 1 twice. *)
Lemma duplicate_ids_are_loaded :
  exists self w,
    Sample.init (Some [Sample.chicken_rice; Sample.chicken_soup]) =
      Ok (self, w) /\
    map Recipe.id (stored self w) = [1%Z; 1%Z] /\
    ~ NoDup (map Recipe.id (stored self w)).
Proof.
  destruct (Sample.init (Some [Sample.chicken_rice; Sample.chicken_soup]))
    as [[self w]|e] eqn:E; [|vm_compute in E; discriminate E].
  exists self, w. split; [reflexivity|].
  vm_compute in E. injection E as <- <-.
  split; [vm_compute; reflexivity|].
  intros H. vm_compute in H. apply NoDup_cons in H as [H _]. apply H. left.
Qed.

(** C6 at a concrete input: a row shorter than the header among two
    well-formed rows.  [row['ingredients']] is [None] there, its [split]
    raises [AttributeError], which the [except] clause does not name, and
    the construction of the index ends with that exception. *)
Theorem short_row_is_fatal (Score BM25 : Type)
    (BM25Okapi : list (list str) -> result BM25) (lemmatize : str -> str)
    (normalizer : TextNormalizer.t) (w0 : world Score) :
  __init__ BM25Okapi lemmatize normalizer
    (Some [Sample.chicken_rice; Sample.short_row "3" "Broken";
           Sample.tomato_pasta]) w0 =
  Raise AttributeError.
Proof.
  unfold __init__, _load_recipes.
  replace (load_rows _ _ w0) with (@Raise (t BM25 * world Score) AttributeError);
    [reflexivity|].
  vm_compute. reflexivity.
Qed.

End IndexExamples.

(** ** Further properties of loading and searching *)

Module MoreFacts.
Import PyStr PyList PyListFacts TextNormalizer RecipeIndexer LoaderFacts
       IndexFacts.

Section Facts.
Variable Score : Type.
Variable score_ltb : Score -> Score -> bool.
Variable BM25 : Type.
Variable BM25Okapi : list (list str) -> result BM25.
Variable get_scores : BM25 -> list str -> list Score.
Variable lemmatize : str -> str.
Variable normalizer : TextNormalizer.t.

Lemma accepted_app (rows1 rows2 : list row) :
  accepted Score (rows1 ++ rows2) =
  accepted Score rows1 ++ accepted Score rows2.
Proof. unfold accepted. apply omap_app. Qed.

Lemma accepted_all (rows : list row) :
  Forall (fun r => exists recipe, parse_row Score r = Ok recipe) rows ->
  length (accepted Score rows) = length rows /\
  filter (fun r => Is_true (caught Score r)) rows = [].
Proof.
  induction 1 as [|r rows [recipe Hr] _ [IH1 IH2]]; [split; reflexivity|].
  rewrite (accepted_cons_ok _ _ _ _ Hr), filter_cons.
  destruct (decide (Is_true (caught Score r))) as [Hc|_].
  - unfold caught in Hc. rewrite Hr in Hc. destruct Hc.
  - simpl. rewrite IH1. split; [reflexivity|exact IH2].
Qed.

(** The loop over the rows comes to its end when no row raises anything
    but the two caught exceptions. *)
Lemma load_rows_total (rows : list row) (self : t BM25) (w : world Score) :
  Forall (fun r => (exists recipe, parse_row Score r = Ok recipe) \/
                   caught Score r = true) rows ->
  exists self' w', load_rows rows self w = Ok (self', w').
Proof.
  intros H. revert self w.
  induction H as [|r rows Hr _ IH]; intros self w; [simpl; eauto|].
  simpl. destruct Hr as [[recipe ->]|Hc].
  - apply IH.
  - unfold caught in Hc.
    destruct (parse_row Score r) as [?|[]]; try discriminate Hc; apply IH.
Qed.

(** Build resilience for the rows that the loader catches: one row that
    raises [KeyError] or [ValueError] among well-formed rows is skipped,
    the others are loaded, and exactly one warning is printed. *)
Theorem load_skips_caught_row (rows1 rows2 : list row) (bad : row)
    (self : t BM25) (w : world Score) :
  Forall (fun r => exists recipe, parse_row Score r = Ok recipe)
         (rows1 ++ rows2) ->
  caught Score bad = true ->
  exists self' w',
    _load_recipes (Some (rows1 ++ bad :: rows2)) self w = Ok (self', w') /\
    length (recipes self') =
      length (recipes self) + (length rows1 + length rows2) /\
    length (skipped (stdout w')) = length (skipped (stdout w)) + 1.
Proof.
  intros Hok Hbad. apply Forall_app in Hok as [Hok1 Hok2].
  destruct (load_rows_total (rows1 ++ bad :: rows2) self w)
    as (self' & w' & Hload).
  { apply Forall_app. split; [|constructor; [right; exact Hbad|]];
      (eapply Forall_impl; [eassumption|]); intros r Hr; left; exact Hr. }
  exists self', (print (Loaded (length (recipes self'))) w').
  unfold _load_recipes. rewrite Hload. cbn [bind].
  split; [reflexivity|].
  apply load_rows_ok in Hload as (Hr & _ & _ & _ & Hs).
  destruct (accepted_all _ Hok1) as [Ha1 Hf1].
  destruct (accepted_all _ Hok2) as [Ha2 Hf2].
  assert (Hb : accepted Score (bad :: rows2) = accepted Score rows2).
  { unfold caught in Hbad.
    destruct (parse_row Score bad) as [?|e] eqn:E; [discriminate|].
    apply (accepted_cons_raise _ _ _ _ E). }
  split.
  - rewrite Hr, length_app, length_seq, accepted_app, length_app, Hb. lia.
  - unfold skipped, print in *. cbn [stdout] in *.
    rewrite filter_app, length_app. cbn. rewrite Nat.add_0_r, Hs.
    rewrite filter_app, filter_cons, Hf1, Hf2.
    destruct (decide (Is_true (caught Score bad))) as [_|Hn];
      [reflexivity|]. rewrite Hbad in Hn. destruct Hn. exact I.
Qed.

(** Alignment: after construction the tokenized corpus has one entry per
    stored recipe. *)
Theorem corpus_aligned (source : option (list row)) (w0 w : world Score)
    (self : t BM25) :
  __init__ BM25Okapi lemmatize normalizer source w0 = Ok (self, w) ->
  length (tokenized_corpus self) = length (recipes self).
Proof.
  intros H. apply init_built in H as (rows & _ & (Hr & _ & _ & Ht) & _).
  rewrite Hr, length_seq. exact Ht.
Qed.

(** The empty-query policy: a query without ingredients, and a query of
    an empty and a blank ingredient, return no recipe and leave the world
    as it is, whatever the index (the empty text being no key of the
    synonym table or of the plural table). *)
Theorem search_empty_query (self : t BM25) (k : Z) (w : world Score) :
  synonyms normalizer !! [] = None ->
  plural_map normalizer !! [] = None ->
  search score_ltb get_scores lemmatize normalizer self [] k w = Ok ([], w) /\
  search score_ltb get_scores lemmatize normalizer self [py ""; py "   "] k w
    = Ok ([], w).
Proof.
  intros Hs Hp.
  assert (Hq : query_tokens lemmatize normalizer [py ""; py "   "] = []).
  { unfold query_tokens, normalize_list, normalize, replace_whole.
    cbn [map]. change (strip (lower (py ""))) with (@nil ascii).
    change (strip (lower (py "   "))) with (@nil ascii).
    cbn [sub_punct map split join]. rewrite Hs, Hp. reflexivity. }
  unfold search. destruct (bm25 self); [|split; reflexivity].
  rewrite Hq. split; reflexivity.
Qed.

(** An index over no document, once it is constructed, answers every
    search with no recipe. *)
Theorem search_empty_index (index : BM25) (ingredients : list str) (k : Z)
    (w : world Score) :
  (forall corpus index query,
     BM25Okapi corpus = Ok index ->
     length (get_scores index query) = length corpus) ->
  BM25Okapi [] = Ok index ->
  search score_ltb get_scores lemmatize normalizer
         (Build [] (Some index) []) ingredients k w = Ok ([], w).
Proof.
  intros Hlen Hnew. unfold search. cbn [bm25].
  destruct (query_tokens lemmatize normalizer ingredients) as [|tk tks];
    [reflexivity|].
  specialize (Hlen [] index (tk :: tks) Hnew).
  destruct (get_scores index (tk :: tks)); [|discriminate Hlen].
  unfold top_indices, slice_to. simpl.
  destruct (0 <=? k)%Z; [destruct (Z.to_nat k)|]; reflexivity.
Qed.

End Facts.
End MoreFacts.

Module MoreExamples.
Import RecipeIndexer IndexFacts MoreFacts.

(** A row whose id is no integer between the two rows of the example. *)
Lemma load_skips_caught_row_sample :
  exists self' w',
    _load_recipes
      (Some ([Sample.chicken_rice] ++
             Sample.full_row "x1" "Bad" "a" "b" "c" "d" "5" ::
             [Sample.tomato_pasta]))
      (Build (BM25 := Sample.BM25) [] None []) Sample.empty_world =
      Ok (self', w') /\
    length (recipes self') = length (@nil nat) + (1 + 1) /\
    length (skipped (stdout w')) =
      length (skipped (stdout Sample.empty_world)) + 1.
Proof.
  apply (load_skips_caught_row Z Sample.BM25 [Sample.chicken_rice]
           [Sample.tomato_pasta]).
  - repeat constructor; eexists; vm_compute; reflexivity.
  - vm_compute. reflexivity.
Defined.

Lemma corpus_aligned_sample :
  length (tokenized_corpus Sample.loaded.1) = length (recipes Sample.loaded.1).
Proof.
  apply (corpus_aligned Z Sample.BM25 Sample.BM25Okapi Sample.lemmatize
           Sample.normalizer
           (Some [Sample.chicken_rice; Sample.tomato_pasta])
           Sample.empty_world Sample.loaded.2).
  exact IndexExamples.sample_loaded.
Defined.

Lemma search_empty_query_sample :
  search Z.ltb Sample.get_scores Sample.lemmatize Sample.normalizer
    Sample.loaded.1 [] 5 Sample.loaded.2 = Ok ([], Sample.loaded.2) /\
  search Z.ltb Sample.get_scores Sample.lemmatize Sample.normalizer
    Sample.loaded.1 [py ""; py "   "] 5 Sample.loaded.2 =
    Ok ([], Sample.loaded.2).
Proof.
  apply (search_empty_query Z Z.ltb Sample.BM25 Sample.get_scores
           Sample.lemmatize Sample.normalizer);
    vm_compute; reflexivity.
Defined.

(** With a scorer whose constructor takes the empty corpus. *)
Lemma search_empty_index_sample :
  search Z.ltb Sample.get_scores Sample.lemmatize Sample.normalizer
    (Build [] (Some []) []) [py "rice"] 3 Sample.empty_world =
  Ok ([], Sample.empty_world).
Proof.
  apply (search_empty_index Z Z.ltb Sample.BM25 (fun corpus => Ok corpus)
           Sample.get_scores Sample.lemmatize Sample.normalizer).
  - intros corpus index query [= <-]. apply length_map.
  - reflexivity.
Defined.

End MoreExamples.

(** ** More on strings *)

Module PyStrMore.
Import PyChar PyStr PyCharFacts PyStrFacts.

Lemma drop_while_app (p : ascii -> bool) (s1 s2 : str) :
  drop_while p (s1 ++ s2) =
  match drop_while p s1 with
  | [] => drop_while p s2
  | c :: t => (c :: t) ++ s2
  end.
Proof.
  induction s1 as [|c s1 IH]; [reflexivity|].
  simpl. destruct (p c); [exact IH|reflexivity].
Qed.

(** [rstrip] from the left: a character stays when something behind it
    stays or it is no whitespace. *)
Lemma rstrip_cons (c : ascii) (s : str) :
  rstrip (c :: s) =
  match rstrip s with
  | [] => if isspace c then [] else [c]
  | d :: t => c :: d :: t
  end.
Proof.
  unfold rstrip. simpl rev. rewrite drop_while_app.
  destruct (drop_while isspace (rev s)) as [|d t] eqn:E.
  - simpl. destruct (isspace c); reflexivity.
  - change (rev ((d :: t) ++ [c])) with (rev ((d :: t) ++ [c])).
    rewrite rev_app_distr. simpl.
    destruct (rev t ++ [d]) eqn:E'; [|reflexivity].
    destruct (rev t); discriminate.
Qed.

Lemma rstrip_idem (s : str) : rstrip (rstrip s) = rstrip s.
Proof.
  induction s as [|c s IH]; [reflexivity|].
  rewrite rstrip_cons. destruct (rstrip s) as [|d t] eqn:E.
  - destruct (isspace c) eqn:Ec; [reflexivity|].
    rewrite rstrip_cons. change (rstrip []) with (@nil ascii).
    rewrite Ec. reflexivity.
  - rewrite rstrip_cons, IH. reflexivity.
Qed.

Lemma rstrip_head (c : ascii) (s : str) :
  isspace c = false -> exists t, rstrip (c :: s) = c :: t.
Proof.
  intros Hc. rewrite rstrip_cons, Hc. destruct (rstrip s); eauto.
Qed.

Lemma lstrip_shape (s : str) :
  lstrip s = [] \/ exists c t, lstrip s = c :: t /\ isspace c = false.
Proof.
  unfold lstrip. induction s as [|c s IH]; [left; reflexivity|].
  simpl. destruct (isspace c) eqn:E; [exact IH|]. right. eauto.
Qed.

(** A stripped string is empty or starts with a character that is no
    whitespace. *)
Lemma strip_shape (s : str) :
  strip s = [] \/ exists c t, strip s = c :: t /\ isspace c = false.
Proof.
  unfold strip. destruct (lstrip_shape s) as [->|(c & t & -> & Hc)].
  - left. reflexivity.
  - right. destruct (rstrip_head c t Hc) as [t' ->]. eauto.
Qed.

Lemma strip_idem (s : str) : strip (strip s) = strip s.
Proof.
  destruct (strip_shape s) as [E|(c & t & E & Hc)].
  - rewrite E. reflexivity.
  - unfold strip at 1. rewrite (lstrip_fixed (strip s) c).
    + unfold strip. apply rstrip_idem.
    + rewrite E. reflexivity.
    + exact Hc.
Qed.

Lemma drop_while_lower (s : str) :
  drop_while isspace (lower s) = lower (drop_while isspace s).
Proof.
  unfold lower. induction s as [|c s IH]; [reflexivity|].
  simpl. rewrite isspace_lower. destruct (isspace c); [exact IH|reflexivity].
Qed.

Lemma lower_rev (s : str) : lower (rev s) = rev (lower s).
Proof. unfold lower. apply map_rev. Qed.

(** Lowercasing and stripping commute. *)
Lemma strip_lower (s : str) : strip (lower s) = lower (strip s).
Proof.
  unfold strip, rstrip, lstrip.
  rewrite drop_while_lower, <- lower_rev, drop_while_lower, lower_rev.
  reflexivity.
Qed.

Lemma lower_lower (s : str) : lower (lower s) = lower s.
Proof.
  unfold lower. rewrite map_map. apply map_ext. apply PyCharFacts.lower_idem.
Qed.

(** A stripped string is empty exactly when the string is all
    whitespace. *)
Lemma strip_nil (s : str) :
  strip s = [] <-> Forall (fun c => isspace c = true) s.
Proof.
  unfold strip, lstrip. induction s as [|c s IH]; [split; constructor|].
  simpl. destruct (isspace c) eqn:E.
  - rewrite IH. split; [intros H; constructor; assumption|].
    intros H. inversion H; assumption.
  - split.
    + intros H. destruct (rstrip_head c s E) as [t Ht]. congruence.
    + intros H. inversion H; congruence.
Qed.

(** The fields of [split_on]: none holds the separator, and the string
    is made of the separator and the characters of the fields. *)
Lemma split_on_fields (sep : ascii) (s : str) :
  Forall (Forall (fun c => c <> sep)) (split_on sep s).
Proof.
  induction s as [|c s IH]; [repeat constructor|].
  simpl. destruct (Ascii.eqb_spec c sep) as [->|Hne].
  - constructor; [constructor|exact IH].
  - destruct (split_on sep s) as [|f fs]; [repeat constructor; exact Hne|].
    inversion IH; subst. repeat constructor; assumption.
Qed.

Lemma split_on_chars (P : ascii -> Prop) (sep : ascii) (s : str) :
  Forall (Forall P) (split_on sep s) <->
  Forall (fun c => c = sep \/ P c) s.
Proof.
  induction s as [|c s IH]; [split; repeat constructor|].
  simpl. destruct (Ascii.eqb_spec c sep) as [->|Hne].
  - rewrite Forall_cons, Forall_cons, IH.
    split; [intros [_ H]; split; auto|intros [_ H]; split; [constructor|auto]].
  - rewrite Forall_cons, <- IH.
    destruct (split_on sep s) as [|f fs].
    + split.
      * intros H. apply Forall_cons in H as [H _].
        apply Forall_cons in H as [H _]. split; [auto|constructor].
      * intros [[?|H] _]; [congruence|]. repeat constructor. exact H.
    + rewrite !Forall_cons. split.
      * intros [[H1 H2] H3]. auto.
      * intros [[?|H1] [H2 H3]]; [congruence|auto].
Qed.

Lemma split_on_nonempty (sep : ascii) (s : str) : split_on sep s <> [].
Proof.
  destruct s as [|c s]; simpl; [discriminate|].
  destruct (Ascii.eqb c sep); [discriminate|].
  destruct (split_on sep s); discriminate.
Qed.

End PyStrMore.

(** ** More on the normaliser *)

Module NormalizerMore.
Import PyChar PyStr PyCharFacts PyStrFacts PyStrMore TextNormalizer
       NormalizerFacts.

Lemma sub_delete_sublist (m : str -> option nat) (skip : nat) (s : str) :
  sublist (sub_delete m skip s) s.
Proof.
  revert skip. induction s as [|c s IH]; intros skip; [constructor|].
  simpl. destruct skip as [|k]; [|apply sublist_cons, IH].
  destruct (m (c :: s)) as [[|k]|];
    [apply sublist_skip, IH|apply sublist_cons, IH|apply sublist_skip, IH].
Qed.

Lemma sub_delete_number_no_digit (skip : nat) (s : str) :
  Forall (fun c => isdigit c = false) (sub_delete Pattern.number skip s).
Proof.
  revert skip. induction s as [|c s IH]; intros skip; [constructor|].
  simpl. destruct skip as [|k]; [|apply IH].
  unfold Pattern.number. simpl. destruct (isdigit c) eqn:E; [apply IH|].
  constructor; [exact E|apply IH].
Qed.

Lemma sub_delete_unchanged (m : str -> option nat) (s : str) :
  (forall c t, isdigit c = false -> m (c :: t) = None) ->
  Forall (fun c => isdigit c = false) s ->
  sub_delete m 0 s = s.
Proof.
  intros Hm. induction 1 as [|c s Hc Hs IH]; [reflexivity|].
  simpl. rewrite (Hm c s Hc), IH. reflexivity.
Qed.

Lemma quantity_needs_digit (c : ascii) (t : str) :
  isdigit c = false -> Pattern.quantity (c :: t) = None.
Proof. intros H. unfold Pattern.quantity. simpl. rewrite H. reflexivity. Qed.

Lemma fraction_needs_digit (c : ascii) (t : str) :
  isdigit c = false -> Pattern.fraction (c :: t) = None.
Proof. intros H. unfold Pattern.fraction. simpl. rewrite H. reflexivity. Qed.

Lemma number_needs_digit (c : ascii) (t : str) :
  isdigit c = false -> Pattern.number (c :: t) = None.
Proof. intros H. unfold Pattern.number. simpl. rewrite H. reflexivity. Qed.

(** The three substitutions of [tokenize_ingredients] only delete
    characters, leave no digit behind, and change nothing in a text
    without digits. *)
Theorem strip_measures_digits (item : str) :
  sublist (strip_measures item) item /\
  Forall (fun c => isdigit c = false) (strip_measures item) /\
  (Forall (fun c => isdigit c = false) item -> strip_measures item = item).
Proof.
  unfold strip_measures. split; [|split].
  - etransitivity; [apply sub_delete_sublist|].
    etransitivity; apply sub_delete_sublist.
  - apply sub_delete_number_no_digit.
  - intros H.
    rewrite (sub_delete_unchanged Pattern.quantity item quantity_needs_digit H).
    rewrite (sub_delete_unchanged Pattern.fraction item fraction_needs_digit H).
    apply (sub_delete_unchanged Pattern.number item number_needs_digit H).
Qed.

(** A normaliser never has an empty set of stopwords: a set that is given
    and not empty is taken, and the default set stands in for no set and
    for the empty one. *)
Theorem init_stopwords_never_empty (file : option (gmap str str))
    (sw : option (gset str)) :
  stopwords (__init__ file sw) <> ∅ /\
  (forall s, sw = Some s -> s <> ∅ -> stopwords (__init__ file sw) = s) /\
  (sw = None \/ sw = Some ∅ ->
   stopwords (__init__ file sw) = default_stopwords).
Proof.
  assert (Hd : default_stopwords <> ∅).
  { intros H. assert (Hin : py "salt" ∈ default_stopwords)
      by (apply elem_of_list_to_set, list_elem_of_further, list_elem_of_here).
    rewrite H in Hin. exact (not_elem_of_empty _ Hin). }
  unfold __init__. cbn [stopwords]. split; [|split].
  - destruct sw as [s|]; [|exact Hd].
    destruct (decide (s = ∅)); [exact Hd|assumption].
  - intros s -> Hs. destruct (decide (s = ∅)); [contradiction|reflexivity].
  - intros [->| ->]; [reflexivity|].
    destruct (decide (∅ = ∅)); [reflexivity|contradiction].
Qed.

Section Methods.
Variable lemmatize : str -> str.
Variable self : TextNormalizer.t.

(** The key terms of a text are words of more than two characters: none
    is empty or holds whitespace. *)
Theorem extract_key_terms_words (text : str) :
  Forall (fun w => is_word w /\ 2 < length w)
         (extract_key_terms lemmatize self text).
Proof.
  unfold extract_key_terms. apply Forall_forall. intros w Hw.
  apply list_elem_of_filter in Hw as [Hlen Hin]. split; [|exact Hlen].
  assert (H : Forall (fun w => is_word w /\ Forall (fun _ => True) w)
                     (split (normalize lemmatize self text true))).
  { apply split_words, Forall_forall. intros; exact I. }
  rewrite Forall_forall in H. apply (H w Hin).
Qed.

(** [normalize] does not see the case of its input nor the whitespace
    around it. *)
Theorem normalize_ignores_case_and_padding (text : str) (r : bool) :
  normalize lemmatize self (lower text) r = normalize lemmatize self text r /\
  normalize lemmatize self (strip text) r = normalize lemmatize self text r.
Proof.
  unfold normalize. split.
  - rewrite lower_lower. reflexivity.
  - rewrite <- strip_lower, strip_idem. reflexivity.
Qed.

(** On a text of canonical words joined by single blanks the cleaning
    steps of [normalize] change nothing. *)
Lemma normalize_clean (ws : list str) (r : bool) :
  Forall canonical_word ws ->
  normalize lemmatize self (join [space] ws) r =
  join [space]
    ((if r then filter (fun w => w ∉ stopwords self) else fun l => l)
       (map lemmatize
          (split (replace_whole (plural_map self)
                    (replace_whole (synonyms self) (join [space] ws)))))).
Proof.
  intros Hcan.
  pose proof (canonical_words_are_words _ Hcan) as Hw.
  pose proof (canonical_chars_join _ Hcan) as Hchars.
  unfold normalize. cbv zeta.
  rewrite lower_fixed
    by (eapply Forall_impl; [exact Hchars|]; simpl; tauto).
  rewrite strip_join by exact Hw.
  rewrite sub_punct_fixed
    by (eapply Forall_impl; [exact Hchars|]; simpl; tauto).
  rewrite split_join by exact Hw.
  destruct r; reflexivity.
Qed.

(** Synonym substitution: a key of the synonym table normalises like its
    replacement, both being canonical words joined by single blanks and
    the replacement being no key itself. *)
Theorem synonym_like_replacement (ks vs : list str) (r : bool) :
  Forall canonical_word ks ->
  Forall canonical_word vs ->
  synonyms self !! join [space] ks = Some (join [space] vs) ->
  synonyms self !! join [space] vs = None ->
  normalize lemmatize self (join [space] ks) r =
  normalize lemmatize self (join [space] vs) r.
Proof.
  intros Hk Hv Hkey Hnokey.
  rewrite !normalize_clean by assumption.
  unfold replace_whole at 2 4. rewrite Hkey, Hnokey. reflexivity.
Qed.

(** Plural folding: a canonical word that is a key of the plural map and
    no key of the synonym table normalises to the lemma of its singular,
    or to the empty text when that is a stopword to be removed. *)
Theorem plural_folded (k v : str) (r : bool) :
  canonical_word k ->
  is_word v ->
  plural_map self !! k = Some v ->
  synonyms self !! k = None ->
  normalize lemmatize self k r =
  if r && bool_decide (lemmatize v ∈ stopwords self) then []
  else lemmatize v.
Proof.
  intros Hk Hv Hpl Hsyn.
  change k with (join [space] [k]) at 1.
  rewrite normalize_clean by (constructor; [exact Hk|constructor]).
  cbn [join]. unfold replace_whole. rewrite Hsyn, Hpl.
  rewrite (split_one_word v Hv). cbn [map].
  destruct r; [|reflexivity]. cbn [andb].
  rewrite filter_cons, filter_nil.
  destruct (decide (lemmatize v ∉ stopwords self)) as [Hn|Hy].
  - rewrite bool_decide_eq_false_2 by exact Hn. reflexivity.
  - rewrite bool_decide_eq_true_2; [reflexivity|].
    destruct (decide (lemmatize v ∈ stopwords self)); [assumption|].
    contradiction.
Qed.

(** The lemmatizer maps a word to a word. *)
Hypothesis lemmatize_word : forall w, is_word w -> is_word (lemmatize w).

(** With a lemmatizer that maps words to words the result of [normalize]
    is made of words separated by single blanks, without blanks around
    them, and with [remove_stopwords] none of its words is a stopword. *)
Theorem normalize_normal_form (text : str) (r : bool) :
  join [space] (split (normalize lemmatize self text r)) =
    normalize lemmatize self text r /\
  Forall (fun w => w ∉ stopwords self)
         (split (normalize lemmatize self text true)).
Proof.
  split.
  - destruct (normalize_split lemmatize self lemmatize_word text r) as (ws & _ & _ & Hj & Hs).
    rewrite Hs. symmetry. exact Hj.
  - destruct (normalize_split lemmatize self lemmatize_word text true) as (ws & _ & Hsw & _ & Hs).
    rewrite Hs. apply Hsw. reflexivity.
Qed.

End Methods.
End NormalizerMore.

Module NormalizerMoreExamples.
Import PyStr TextNormalizer NormalizerFacts NormalizerMore.

(** The example of the specification: "scallion" and "green onion". *)
Lemma synonym_like_replacement_scallion :
  normalize Sample.lemmatize Sample.scallion_normalizer
    (join [space] [py "scallion"]) true =
  normalize Sample.lemmatize Sample.scallion_normalizer
    (join [space] [py "green"; py "onion"]) true.
Proof.
  apply (synonym_like_replacement Sample.lemmatize
           Sample.scallion_normalizer [py "scallion"]
           [py "green"; py "onion"] true).
  - apply canonical_words_spec. vm_compute. reflexivity.
  - apply canonical_words_spec. vm_compute. reflexivity.
  - vm_compute. reflexivity.
  - vm_compute. reflexivity.
Defined.

(** "peppers" is folded to "pepper", a default stopword. *)
Lemma plural_folded_peppers :
  normalize Sample.lemmatize Sample.normalizer (py "peppers") true =
  (if true && bool_decide (Sample.lemmatize (py "pepper") ∈
                             stopwords Sample.normalizer)
   then [] else Sample.lemmatize (py "pepper")).
Proof.
  apply (plural_folded Sample.lemmatize Sample.normalizer (py "peppers")
           (py "pepper") true).
  - apply canonical_wordb_spec. vm_compute. reflexivity.
  - split; [discriminate|]. repeat constructor.
  - vm_compute. reflexivity.
  - vm_compute. reflexivity.
Defined.

(** The identity lemmatizer on a text with punctuation and a stopword. *)
Lemma normalize_normal_form_sample :
  join [space]
    (split (normalize Sample.lemmatize Sample.normalizer
              (py " Fresh  Basil, chopped!") true)) =
    normalize Sample.lemmatize Sample.normalizer
      (py " Fresh  Basil, chopped!") true /\
  Forall (fun w => w ∉ stopwords Sample.normalizer)
         (split (normalize Sample.lemmatize Sample.normalizer
                   (py " Fresh  Basil, chopped!") true)).
Proof.
  apply (normalize_normal_form Sample.lemmatize Sample.normalizer).
  intros w Hw. exact Hw.
Defined.

End NormalizerMoreExamples.

(** ** More on the loader *)

Module LoaderMore.
Import PyChar PyStr PyStrFacts PyStrMore RecipeIndexer LoaderFacts
       IndexFacts Client.

Lemma split_strip_field (v : option str) (l : list str) :
  split_strip v = Ok l -> list_field l.
Proof.
  destruct v as [s|]; [|discriminate]. intros [= <-]. split.
  - pose proof (split_on_nonempty comma s) as H.
    destruct (split_on comma s); [congruence|discriminate].
  - apply Forall_forall. intros x Hx.
    apply list_elem_of_fmap in Hx as (f & -> & Hf).
    split; [apply strip_idem|]. apply strip_Forall.
    pose proof (split_on_fields comma s) as H.
    rewrite Forall_forall in H. apply H, Hf.
Qed.

Section Facts.
Variable Score : Type.
Variable score_ltb : Score -> Score -> bool.
Variable BM25 : Type.
Variable BM25Okapi : list (list str) -> result BM25.
Variable get_scores : BM25 -> list str -> list Score.
Variable lemmatize : str -> str.
Variable normalizer : TextNormalizer.t.

Lemma parse_row_from_row (r : row) (recipe : Recipe.t Score) :
  parse_row Score r = Ok recipe -> from_row Score r recipe.
Proof.
  unfold parse_row.
  destruct (getitem r (py "ingredients")) as [v1|]; cbn [bind]; [|intros [=]].
  destruct (split_strip v1) as [ing|] eqn:Ei; cbn [bind]; [|intros [=]].
  destruct (getitem r (py "tags")) as [v2|]; cbn [bind]; [|intros [=]].
  destruct (split_strip v2) as [tg|] eqn:Et; cbn [bind]; [|intros [=]].
  destruct (getitem r (py "id")) as [v3|] eqn:E1; cbn [bind]; [|intros [=]].
  destruct (int v3) as [n|] eqn:E2; cbn [bind]; [|intros [=]].
  destruct (getitem r (py "title")) as [ti|] eqn:E3; cbn [bind];
    [|intros [=]].
  destruct (getitem r (py "instructions")) as [ins|] eqn:E4; cbn [bind];
    [|intros [=]].
  destruct (getitem r (py "cuisine")) as [cu|] eqn:E5; cbn [bind];
    [|intros [=]].
  unfold Recipe.validate.
  destruct ti as [ti|]; [|intros [=]].
  destruct ins as [ins|]; [|intros [=]].
  destruct cu as [cu|]; [|intros [=]].
  intros [= <-]. unfold from_row.
  cbn [Recipe.score Recipe.ingredients Recipe.tags Recipe.title
       Recipe.instructions Recipe.cuisine Recipe.id Recipe.time_minutes].
  unfold getitem, of_option in E1, E3, E4, E5.
  destruct (r !! py "id") as [v|]; [|discriminate]. injection E1 as ->.
  destruct (r !! py "title") as [v|]; [|discriminate]. injection E3 as ->.
  destruct (r !! py "instructions") as [v|]; [|discriminate].
  injection E4 as ->.
  destruct (r !! py "cuisine") as [v|]; [|discriminate]. injection E5 as ->.
  split; [reflexivity|].
  split; [eapply split_strip_field, Ei|].
  split; [eapply split_strip_field, Et|].
  repeat (split; [reflexivity|]). split.
  - unfold int in E2. destruct v3 as [s|]; [|discriminate].
    exists s. split; [reflexivity|].
    destruct (PyInt.of_str s); [|discriminate]. injection E2 as ->.
    reflexivity.
  - unfold parse_time.
    destruct (r !! py "time_minutes") as [[[|c s]|]|]; try exact I.
    destruct (PyInt.of_str (c :: s)) as [m|] eqn:Em; [|exact I].
    exists (c :: s). split; [reflexivity|exact Em].
Qed.

Hypothesis get_scores_length :
  forall corpus index query,
    BM25Okapi corpus = Ok index ->
    length (get_scores index query) = length corpus.

(** Every recipe of a constructed index, also after searches, is as the
    loader made it from a row of the file: it carries no score, its
    ingredients and its tags are lists with at least one entry, every
    entry stripped and without a comma, its three text fields are those
    of the row, and its id, and its time when it has one, are the
    integers that the row's fields denote. *)
Theorem stored_recipes_from_rows (rows : list row) (w0 w1 w : world Score)
    (self : t BM25) (calls : list (list str * Z)) :
  __init__ BM25Okapi lemmatize normalizer (Some rows) w0 = Ok (self, w1) ->
  run_searches score_ltb get_scores lemmatize normalizer self calls w1 =
    Ok w ->
  Forall (fun recipe => exists r, r ∈ rows /\ from_row Score r recipe)
         (stored self w).
Proof.
  intros Hinit Hrun.
  destruct (init_then_searches Score score_ltb BM25 BM25Okapi get_scores
              lemmatize normalizer get_scores_length _ _ _ _ calls Hinit)
    as (rows' & extra & [= <-] & _ & _ & Hrun' & Hb).
  rewrite Hrun in Hrun'. injection Hrun' as ->.
  rewrite (built_stored _ _ _ _ _ _ _ Hb).
  apply Forall_forall. intros recipe Hin.
  unfold accepted in Hin. apply list_elem_of_omap in Hin as (r & Hr & Hp).
  exists r. split; [exact Hr|]. apply parse_row_from_row.
  destruct (parse_row Score r); [congruence|discriminate].
Qed.

End Facts.
End LoaderMore.

Module LoaderMoreExamples.
Import RecipeIndexer LoaderMore.

Lemma stored_recipes_from_rows_sample :
  Forall (fun recipe =>
            exists r,
              r ∈ [Sample.chicken_rice; Sample.tomato_pasta] /\
              from_row Z r recipe)
         (stored Sample.loaded.1 Sample.loaded.2).
Proof.
  apply (stored_recipes_from_rows Z Z.ltb Sample.BM25 Sample.BM25Okapi
           Sample.get_scores Sample.lemmatize Sample.normalizer
           IndexExamples.sample_scores_length
           [Sample.chicken_rice; Sample.tomato_pasta]
           Sample.empty_world Sample.loaded.2 Sample.loaded.2
           Sample.loaded.1 []).
  - exact IndexExamples.sample_loaded.
  - reflexivity.
Defined.

(** [int] skips blanks around the digits and refuses the separator
    U+001C, which [str.strip] would take off. *)
Example of_str_whitespace :
  PyInt.of_str (py " 12 ") = Some 12%Z /\
  PyStr.strip (py "12" ++ [Ascii.ascii_of_nat 28]) = py "12" /\
  PyInt.of_str (py "12" ++ [Ascii.ascii_of_nat 28]) = None.
Proof. repeat split; vm_compute; reflexivity. Qed.

End LoaderMoreExamples.

(** ** More on the index *)

Module IndexMore.
Import PyStr PyList PyStrFacts PyListFacts RecipeIndexer LoaderFacts
       IndexFacts Client.

Lemma dedup_spec (seen : gset str) (tokens : list str) :
  NoDup (dedup seen tokens) /\
  sublist (dedup seen tokens) tokens /\
  forall tk, tk ∈ dedup seen tokens <-> tk ∈ tokens /\ tk ∉ seen.
Proof.
  revert seen. induction tokens as [|x tokens IH]; intros seen; simpl.
  - split; [constructor|]. split; [constructor|].
    intros tk. split; [intros H; inversion H|intros [H _]; inversion H].
  - destruct (decide (x ∈ seen)) as [Hin|Hnin].
    + destruct (IH seen) as (Hnd & Hsub & Hel).
      split; [exact Hnd|]. split; [apply sublist_cons, Hsub|].
      intros tk. rewrite Hel, elem_of_cons. split; [tauto|].
      intros [[->|H] Hn]; [contradiction|tauto].
    + destruct (IH ({[x]} ∪ seen)) as (Hnd & Hsub & Hel).
      split; [|split].
      * constructor; [|exact Hnd]. rewrite Hel, elem_of_union,
          elem_of_singleton. tauto.
      * apply sublist_skip, Hsub.
      * intros tk. rewrite !elem_of_cons, Hel, elem_of_union,
          elem_of_singleton.
        destruct (decide (tk = x)) as [->|Hne]; tauto.
Qed.

Lemma filter_ext_elem {A : Type} (P Q : A -> Prop)
    `{forall a, Decision (P a)} `{forall a, Decision (Q a)} (l : list A) :
  (forall a, a ∈ l -> P a <-> Q a) -> filter P l = filter Q l.
Proof.
  induction l as [|a l IH]; intros Hpq; [reflexivity|].
  rewrite !filter_cons.
  rewrite IH by (intros b Hb; apply Hpq; right; exact Hb).
  pose proof (Hpq a (list_elem_of_here a l)) as Ha.
  destruct (decide (P a)), (decide (Q a)); tauto || reflexivity.
Qed.

Lemma dedup_first (seen : gset str) (n : nat) (l : list str) :
  dedup seen l =
  map snd
    (filter (fun p => (p.2 ∉ seen) /\ (p.2 ∉ take (p.1 - n) l))
            (enumerate_from n l)).
Proof.
  revert seen n. induction l as [|x l IH]; intros seen n; [reflexivity|].
  cbn [dedup enumerate_from]. rewrite filter_cons. cbn [fst snd].
  replace (n - n) with 0 by lia. cbn [take].
  assert (Hrest : forall s' : gset str,
            (forall y, y ∉ s' <-> (y ∉ seen) /\ y <> x) ->
            filter (fun p => (p.2 ∉ s') /\ (p.2 ∉ take (p.1 - S n) l))
                   (enumerate_from (S n) l) =
            filter (fun p => (p.2 ∉ seen) /\ (p.2 ∉ take (p.1 - n) (x :: l)))
                   (enumerate_from (S n) l)).
  { intros s' Hs'. apply filter_ext_elem. intros [i y] Hin.
    apply enumerate_from_lookup in Hin as [Hle _]. cbn [fst snd].
    replace (i - n) with (S (i - S n)) by lia. cbn [take].
    rewrite not_elem_of_cons, Hs'. tauto. }
  destruct (decide (x ∈ seen)) as [Hin|Hnin].
  - destruct (decide ((x ∉ seen) /\ (x ∉ []))) as [[Hn _]|_]; [contradiction|].
    rewrite (IH seen (S n)), (Hrest seen); [reflexivity|].
    intros y. split; [|tauto]. intros Hy. split; [exact Hy|].
    intros ->. contradiction.
  - destruct (decide ((x ∉ seen) /\ (x ∉ []))) as [_|Hn].
    + cbn [map snd]. f_equal. rewrite (IH ({[x]} ∪ seen) (S n)), (Hrest ({[x]} ∪ seen));
        [reflexivity|].
      intros y. rewrite elem_of_union, elem_of_singleton. tauto.
    + exfalso. apply Hn. split; [exact Hnin|]. apply not_elem_of_nil.
Qed.

Lemma dedup_first_occurrences (l : list str) :
  dedup ∅ l = first_occurrences l.
Proof.
  rewrite (dedup_first ∅ 0). unfold first_occurrences. f_equal.
  apply filter_ext_elem. intros [i y] _. cbn [fst snd].
  replace (i - 0) with i by lia. split; [tauto|].
  intros H. split; [apply not_elem_of_empty|exact H].
Qed.
Lemma StronglySorted_across {A : Type} (R : A -> A -> Prop)
    (l1 l2 : list A) (x y : A) :
  StronglySorted R (l1 ++ l2) -> x ∈ l1 -> y ∈ l2 -> R x y.
Proof.
  induction l1 as [|z l1 IH]; intros Hs Hx Hy; [inversion Hx|].
  inversion Hs as [|? ? Hs' Hz]; subst.
  apply elem_of_cons in Hx as [->|Hx]; [|apply IH; assumption].
  rewrite Forall_forall in Hz. apply Hz, elem_of_app. right. exact Hy.
Qed.

Lemma enumerate_from_fst {A : Type} (l : list A) (n : nat) :
  map fst (enumerate_from n l) = seq n (length l).
Proof.
  revert n. induction l as [|x l IH]; intros n; [reflexivity|].
  simpl. rewrite IH. reflexivity.
Qed.

Lemma slice_to_negative_length {A : Type} (k : Z) (l : list A) :
  (k < 0)%Z -> length (slice_to k l) = length l - Z.to_nat (- k).
Proof.
  intros Hk. unfold slice_to.
  destruct (Z.leb_spec 0 k); [lia|]. rewrite length_take. lia.
Qed.

Section Facts.
Variable Score : Type.
Variable score_ltb : Score -> Score -> bool.
Variable BM25 : Type.
Variable BM25Okapi : list (list str) -> result BM25.
Variable get_scores : BM25 -> list str -> list Score.
Variable lemmatize : str -> str.
Variable normalizer : TextNormalizer.t.

Lemma normalized_words_elem (ingredients : list str) (tk : str) :
  tk ∈ concat (map split
         (TextNormalizer.normalize_list lemmatize normalizer ingredients
            true)) <->
  exists item,
    item ∈ ingredients /\
    tk ∈ split (TextNormalizer.normalize lemmatize normalizer item true).
Proof.
  unfold TextNormalizer.normalize_list.
  rewrite list_elem_of_In, in_concat. split.
  - intros (ws & Hws & Htk). apply in_map_iff in Hws as (t & <- & Ht).
    apply in_map_iff in Ht as (item & <- & Hitem).
    exists item. rewrite !list_elem_of_In. auto.
  - intros (item & Hitem & Htk). rewrite list_elem_of_In in Hitem, Htk.
    eexists. split; [|exact Htk].
    apply in_map, in_map_iff. eauto.
Qed.

(** The query tokens are the words of the normalised ingredients, each
    at its first occurrence and in that order; so they are pairwise
    distinct words, and a word is a query token exactly when it is a
    word of the normal form of an ingredient. *)
Theorem query_tokens_distinct_words (ingredients : list str) :
  query_tokens lemmatize normalizer ingredients =
    first_occurrences
      (concat (map split
         (TextNormalizer.normalize_list lemmatize normalizer ingredients
            true))) /\
  NoDup (query_tokens lemmatize normalizer ingredients) /\
  Forall is_word (query_tokens lemmatize normalizer ingredients) /\
  sublist (query_tokens lemmatize normalizer ingredients)
    (concat (map split
       (TextNormalizer.normalize_list lemmatize normalizer ingredients true)))
  /\
  forall tk,
    tk ∈ query_tokens lemmatize normalizer ingredients <->
    exists item,
      item ∈ ingredients /\
      tk ∈ split (TextNormalizer.normalize lemmatize normalizer item true).
Proof.
  unfold query_tokens.
  set (words := concat (map split _)).
  split; [apply dedup_first_occurrences|].
  destruct (dedup_spec ∅ words) as (Hnd & Hsub & Hel).
  pose proof (normalized_words_elem ingredients) as Hwords.
  fold words in Hwords.
  split; [exact Hnd|]. split; [|split; [exact Hsub|]].
  - apply Forall_forall. intros tk Htk.
    apply Hel in Htk as [Htk _]. apply Hwords in Htk as (item & _ & Htk).
    assert (H : Forall (fun w => is_word w /\ Forall (fun _ => True) w)
                  (split (TextNormalizer.normalize lemmatize normalizer
                            item true))).
    { apply split_words, Forall_forall. intros; exact I. }
    rewrite Forall_forall in H. apply (H tk Htk).
  - intros tk. rewrite Hel, Hwords. split; [tauto|].
    intros H. split; [exact H|]. apply not_elem_of_empty.
Qed.

(** With a lemmatizer that maps words to words no stopword of the
    normaliser is among the query tokens: the scorer is never asked for
    one. *)
Theorem query_tokens_no_stopword (ingredients : list str) :
  (forall w, is_word w -> is_word (lemmatize w)) ->
  Forall (fun tk => tk ∉ TextNormalizer.stopwords normalizer)
         (query_tokens lemmatize normalizer ingredients).
Proof.
  intros Hlem. unfold query_tokens.
  set (words := concat (map split _)).
  destruct (dedup_spec ∅ words) as (_ & _ & Hel).
  apply Forall_forall. intros tk Htk.
  apply Hel in Htk as [Htk _].
  apply normalized_words_elem in Htk as (item & _ & Htk).
  destruct (NormalizerFacts.normalize_split lemmatize normalizer Hlem item
              true) as (ws & _ & Hsw & _ & Hs).
  rewrite Hs in Htk. specialize (Hsw eq_refl).
  rewrite Forall_forall in Hsw. apply Hsw, Htk.
Qed.

(** [get_all_recipes] returns a prefix of the stored list: the whole list
    without a limit and for the limit 0, and the first [limit] recipes,
    or all when there are fewer, for a positive limit. *)
Theorem get_all_recipes_prefix (self : t BM25) (limit : option Z) :
  (exists rest, recipes self = get_all_recipes self limit ++ rest) /\
  (limit = None \/ limit = Some 0%Z ->
   get_all_recipes self limit = recipes self) /\
  (forall k, limit = Some k -> (0 < k)%Z ->
   length (get_all_recipes self limit) =
   Nat.min (Z.to_nat k) (get_recipe_count self)).
Proof.
  split; [|split].
  - unfold get_all_recipes. destruct limit as [k|]; [|exists []; symmetry; apply app_nil_r].
    destruct (k =? 0)%Z; [exists []; symmetry; apply app_nil_r|].
    destruct (slice_to_is_take k (recipes self)) as [n ->].
    exists (drop n (recipes self)). symmetry. apply take_drop.
  - intros [->| ->]; reflexivity.
  - intros k -> Hk. unfold get_all_recipes, get_recipe_count.
    destruct (Z.eqb_spec k 0); [lia|]. apply slice_to_length. lia.
Qed.

(** The loader accounts for every row: when it returns, each row of the
    source was either loaded or skipped with a warning, and the last line
    it printed reports the number of recipes. *)
Theorem load_accounts_for_rows (rows : list row) (self self' : t BM25)
    (w w' : world Score) :
  _load_recipes (Some rows) self w = Ok (self', w') ->
  length (recipes self') + length (skipped (stdout w')) =
    length (recipes self) + length (skipped (stdout w)) + length rows /\
  last (stdout w') = Some (Loaded (length (recipes self'))).
Proof.
  unfold _load_recipes.
  destruct (load_rows rows self w) as [[self1 w1]|] eqn:E; cbn [bind];
    [|intros [=]].
  intros [= <- <-]. split; [|apply last_snoc].
  assert (Hpart : length (accepted Score rows) +
                  length (filter (fun r => Is_true (caught Score r)) rows) =
                  length rows).
  { clear -E. revert self w E.
    induction rows as [|r rows IH]; intros self w E; [reflexivity|].
    simpl in E. rewrite filter_cons.
    destruct (parse_row Score r) as [recipe|e] eqn:Er.
    - rewrite (accepted_cons_ok _ _ _ _ Er).
      destruct (decide (Is_true (caught Score r))) as [Hc|_].
      + unfold caught in Hc. rewrite Er in Hc. destruct Hc.
      + simpl. f_equal. eapply IH, E.
    - rewrite (accepted_cons_raise _ _ _ _ Er).
      assert (Hc : caught Score r = true).
      { unfold caught. rewrite Er. destruct e; try discriminate E; reflexivity. }
      destruct (decide (Is_true (caught Score r))) as [_|Hn];
        [|rewrite Hc in Hn; destruct Hn; exact I].
      simpl. rewrite Nat.add_succ_r. f_equal.
      destruct e; try discriminate E; eapply IH, E. }
  apply load_rows_ok in E as (Hr & _ & _ & _ & Hs).
  assert (Hsk : skipped (stdout (print (Loaded (length (recipes self1))) w1))
                = skipped (stdout w1)).
  { unfold skipped, print. cbn [stdout]. rewrite filter_app.
    apply app_nil_r. }
  rewrite Hsk, Hs, Hr, length_app, length_seq. lia.
Qed.

(** The scorer returns one score per document of the corpus it was made
    from. *)
Hypothesis get_scores_length :
  forall corpus index query,
    BM25Okapi corpus = Ok index ->
    length (get_scores index query) = length corpus.

(** A negative [k] is a slice bound like any other: the search drops the
    [-k] lowest ranked documents of the corpus. *)
Theorem search_negative_k (source : option (list row))
    (w0 w1 w : world Score) (self : t BM25) (calls : list (list str * Z))
    (ingredients : list str) (k : Z) :
  __init__ BM25Okapi lemmatize normalizer source w0 = Ok (self, w1) ->
  run_searches score_ltb get_scores lemmatize normalizer self calls w1 =
    Ok w ->
  (k < 0)%Z ->
  query_tokens lemmatize normalizer ingredients <> [] ->
  exists results w',
    search score_ltb get_scores lemmatize normalizer self ingredients k w =
      Ok (results, w') /\
    length results = get_recipe_count self - Z.to_nat (- k).
Proof.
  intros Hinit Hrun Hk Htok.
  destruct (init_then_searches Score score_ltb BM25 BM25Okapi get_scores
              lemmatize normalizer get_scores_length _ _ _ _ calls Hinit)
    as (rows & extra & _ & _ & Hb1 & Hrun' & Hb).
  rewrite Hrun in Hrun'. injection Hrun' as ->.
  destruct (search_ok Score score_ltb BM25 BM25Okapi get_scores lemmatize
              normalizer get_scores_length _ _ self _ ingredients k Hb)
    as (copies & Hs & _ & Hsome).
  eexists _, _. split; [exact Hs|]. rewrite length_seq.
  destruct (Hsome Htok) as (index & _ & Hlen & Hcopies).
  apply Forall2_length in Hcopies. rewrite length_map in Hcopies.
  unfold ranked in Hcopies.
  rewrite slice_to_negative_length, sorted_reverse_length,
    enumerate_from_length, Hlen in Hcopies by exact Hk.
  unfold get_recipe_count. destruct Hb as (Hr & _).
  rewrite Hr, length_seq. lia.
Qed.

(** Loading and lookup compose: when the integers in the [id] column of
    the source are pairwise distinct, looking up the id of a stored recipe
    gives the reference to that recipe, also after searches. *)
Theorem load_then_lookup (rows : list row) (w0 w1 w : world Score)
    (self : t BM25) (calls : list (list str * Z)) (recipe : Recipe.t Score) :
  __init__ BM25Okapi lemmatize normalizer (Some rows) w0 = Ok (self, w1) ->
  run_searches score_ltb get_scores lemmatize normalizer self calls w1 =
    Ok w ->
  NoDup (omap row_id rows) ->
  recipe ∈ stored self w ->
  exists l,
    get_recipe_by_id self (Recipe.id recipe) w = Ok (Some l) /\
    heap w !! l = Some recipe.
Proof.
  intros Hinit Hrun Hnd Hin.
  destruct (init_then_searches Score score_ltb BM25 BM25Okapi get_scores
              lemmatize normalizer get_scores_length _ _ _ _ calls Hinit)
    as (rows' & extra & [= <-] & _ & Hb1 & Hrun' & Hb).
  rewrite Hrun in Hrun'. injection Hrun' as ->.
  rewrite (built_stored _ _ _ _ _ _ _ Hb) in Hin.
  set (news := accepted Score rows) in *.
  assert (Hids : NoDup (map Recipe.id news)).
  { eapply sublist_NoDup; [exact Hnd|]. apply accepted_ids_sublist. }
  pose proof Hb as (Hr & (pre & post & Hh & Hp) & _).
  unfold get_recipe_by_id. rewrite Hr, <- Hp.
  rewrite (find_by_id_ok _ pre news post _ (Recipe.id recipe) Hh).
  apply list_elem_of_lookup in Hin as [j Hj].
  destruct (list_find _ news) as [[i x]|] eqn:Ef.
  - apply list_find_Some in Ef as (Hi & Hid & _).
    assert (i = j) as ->.
    { apply (NoDup_lookup _ _ _ (Recipe.id recipe) Hids);
        rewrite list_lookup_fmap; [rewrite Hi, <- Hid|rewrite Hj];
        reflexivity. }
    rewrite Hi in Hj. injection Hj as ->.
    eexists. split; [reflexivity|]. cbn [fst].
    apply lookup_lt_Some in Hi as Hlt.
    destruct (built_lookup _ _ _ _ _ _ _ j Hb Hlt) as [_ Hheap].
    rewrite Hp, Hheap. exact Hi.
  - apply list_find_None in Ef. rewrite Forall_forall in Ef.
    exfalso. apply (Ef recipe); [|reflexivity].
    eapply list_elem_of_lookup_2, Hj.
Qed.


(** What a call of [search] on a constructed index returns, position by
    position: the copies of the documents that [ranked] lists, with the
    scores the scorer gave them for the query tokens. *)
Lemma search_hits (base : nat) (news : list (Recipe.t Score))
    (self : t BM25) (w w' : world Score) (ingredients : list str) (k : Z)
    (results : list nat) :
  built BM25Okapi base news self w ->
  search score_ltb get_scores lemmatize normalizer self ingredients k w =
    Ok (results, w') ->
  exists index hits,
    bm25 self = Some index /\
    heap w' = heap w ++ drop (length (heap w)) (heap w') /\
    (hits = [] \/
     hits = ranked score_ltb
              (get_scores index
                 (query_tokens lemmatize normalizer ingredients)) k) /\
    Forall2
      (fun l' hit =>
         exists l r,
           recipes self !! hit.1 = Some l /\ heap w !! l = Some r /\
           heap w' !! l' = Some (Recipe.set_score r hit.2) /\
           length (heap w) <= l')
      results hits.
Proof.
  intros Hb Hsearch.
  destruct (search_ok Score score_ltb BM25 BM25Okapi get_scores lemmatize
              normalizer get_scores_length _ _ self _ ingredients k Hb)
    as (copies & Hs & Hnone & Hsome).
  rewrite Hsearch in Hs. injection Hs as -> ->.
  pose proof Hb as (_ & _ & (index & Hi & _) & _).
  exists index.
  destruct (query_tokens lemmatize normalizer ingredients) as [|tk tks] eqn:E.
  - rewrite Hnone by reflexivity. exists [].
    split; [exact Hi|]. cbn [heap]. rewrite app_nil_r.
    split; [rewrite drop_all, app_nil_r; reflexivity|].
    split; [left; reflexivity|constructor].
  - destruct Hsome as (index' & Hi' & _ & Hcopies); [discriminate|].
    rewrite Hi in Hi'. injection Hi' as <-.
    set (scores := get_scores index (tk :: tks)) in *.
    exists (ranked score_ltb scores k).
    split; [exact Hi|]. cbn [heap].
    split; [rewrite drop_app_length; reflexivity|].
    split; [right; reflexivity|].
    pose proof (Forall2_length _ _ _ Hcopies) as Hlen.
    rewrite length_map in Hlen.
    apply Forall2_same_length_lookup_2; [rewrite length_seq; lia|].
    intros i l' [idx s] Hl' Hhit.
    apply lookup_seq in Hl' as [-> Hlt].
    assert (Hidx : map fst (ranked score_ltb scores k) !! i = Some idx).
    { rewrite list_lookup_fmap, Hhit. reflexivity. }
    destruct (Forall2_lookup_l _ _ _ _ _ Hcopies Hidx)
      as (c & Hc & r & s' & Hr & Hs' & ->).
    apply list_elem_of_lookup_2, ranked_lookup in Hhit.
    rewrite Hhit in Hs'. injection Hs' as <-.
    apply lookup_lt_Some in Hr as Hlt'.
    destruct (built_lookup _ _ _ _ _ _ _ idx Hb Hlt') as [Hrec Hheap].
    exists (base + idx), r. cbn [fst snd].
    split; [exact Hrec|]. split; [rewrite Hheap; exact Hr|].
    split; [|lia].
    rewrite lookup_app_r by lia.
    replace (length (heap w) + i - length (heap w)) with i by lia.
    exact Hc.
Qed.

Section Order.
Hypothesis score_ltb_asym :
  forall a b, score_ltb a b = true -> score_ltb b a = false.
Hypothesis score_ltb_negtrans :
  forall a b c,
    score_ltb a b = false -> score_ltb b c = false -> score_ltb a c = false.


End Order.

End Facts.
End IndexMore.

(** ** More on the index, at concrete inputs *)

Module IndexMoreExamples.
Import RecipeIndexer IndexFacts IndexMore.

(** Two good rows around one whose id is no integer. *)
Lemma load_accounts_for_rows_sample :
  exists self' w',
    _load_recipes
      (Some [Sample.chicken_rice;
             Sample.full_row "x1" "Bad" "a" "b" "c" "d" "5";
             Sample.tomato_pasta])
      (Build (BM25 := Sample.BM25) [] None []) Sample.empty_world =
      Ok (self', w') /\
    length (recipes self') + length (skipped (stdout w')) = 0 + 0 + 3 /\
    last (stdout w') = Some (Loaded (length (recipes self'))).
Proof.
  eexists _, _. split; [vm_compute; reflexivity|].
  apply (load_accounts_for_rows Z Sample.BM25
           [Sample.chicken_rice;
            Sample.full_row "x1" "Bad" "a" "b" "c" "d" "5";
            Sample.tomato_pasta]
           (Build [] None []) _ Sample.empty_world).
  vm_compute. reflexivity.
Defined.

(** [k = -1] on the corpus of two recipes: one result. *)
Lemma search_negative_k_sample :
  exists results w',
    search Z.ltb Sample.get_scores Sample.lemmatize Sample.normalizer
      Sample.loaded.1 [py "chicken"] (-1) Sample.loaded.2 =
      Ok (results, w') /\
    length results = get_recipe_count Sample.loaded.1 - Z.to_nat (- (-1)).
Proof.
  apply (search_negative_k Z Z.ltb Sample.BM25 Sample.BM25Okapi
           Sample.get_scores Sample.lemmatize Sample.normalizer
           IndexExamples.sample_scores_length
           (Some [Sample.chicken_rice; Sample.tomato_pasta])
           Sample.empty_world Sample.loaded.2 Sample.loaded.2
           Sample.loaded.1 []).
  - exact IndexExamples.sample_loaded.
  - reflexivity.
  - lia.
  - vm_compute. discriminate.
Defined.

(** The second recipe of the example is found by its id. *)
Lemma load_then_lookup_sample :
  exists recipe,
    heap Sample.loaded.2 !! 1 = Some recipe /\
    exists l,
      get_recipe_by_id Sample.loaded.1 (Recipe.id recipe) Sample.loaded.2 =
        Ok (Some l) /\
      heap Sample.loaded.2 !! l = Some recipe.
Proof.
  eexists. split; [vm_compute; reflexivity|].
  apply (load_then_lookup Z Z.ltb Sample.BM25 Sample.BM25Okapi
           Sample.get_scores Sample.lemmatize Sample.normalizer
           IndexExamples.sample_scores_length
           [Sample.chicken_rice; Sample.tomato_pasta]
           Sample.empty_world Sample.loaded.2 Sample.loaded.2
           Sample.loaded.1 []).
  - exact IndexExamples.sample_loaded.
  - reflexivity.
  - apply (bool_decide_unpack _). vm_compute. reflexivity.
  - vm_compute. apply list_elem_of_further, list_elem_of_here.
Defined.


(** The identity lemmatizer, with the stopword "fresh" in the query. *)
Lemma query_tokens_no_stopword_sample :
  Forall (fun tk => tk ∉ TextNormalizer.stopwords Sample.normalizer)
         (query_tokens Sample.lemmatize Sample.normalizer
            [py "fresh basil"; py "rice"]).
Proof.
  apply (query_tokens_no_stopword Sample.lemmatize Sample.normalizer).
  intros w Hw. exact Hw.
Defined.

(** The second "rice" goes, the order of the first occurrences stays. *)
Example first_occurrences_sample :
  PyList.first_occurrences [py "rice"; py "chicken"; py "rice"; py "basil"] =
  [py "rice"; py "chicken"; py "basil"].
Proof. vm_compute. reflexivity. Qed.

End IndexMoreExamples.

(** ** The handlers *)

Module MainFacts.
Import PyChar PyStr PyStrFacts PyStrMore RecipeIndexer LoaderFacts
       IndexFacts IndexMore Client Main.

Lemma omap_nil {A B : Type} (f : A -> option B) (l : list A) :
  omap f l = [] <-> Forall (fun a => f a = None) l.
Proof.
  induction l as [|a l IH]; [split; constructor|].
  simpl. destruct (f a) eqn:E.
  - split; [discriminate|]. intros H. inversion H; congruence.
  - rewrite IH. split; [intros H; constructor; assumption|].
    intros H. inversion H; assumption.
Qed.

Lemma parse_ingredients_Forall (s : str) :
  Forall (fun ing => ing <> [] /\ strip ing = ing /\
                     Forall (fun c => c <> comma) ing)
         (parse_ingredients s).
Proof.
  unfold parse_ingredients.
  pose proof (split_on_fields comma s) as Hf.
  induction Hf as [|f fs Hc _ IH]; [constructor|].
  simpl. destruct (strip f) as [|c t] eqn:E; [exact IH|].
  constructor; [|exact IH]. split; [discriminate|].
  rewrite <- E. split; [apply strip_idem|]. apply strip_Forall, Hc.
Qed.

Lemma parse_ingredients_nil (s : str) :
  parse_ingredients s = [] <->
  Forall (fun c => c = comma \/ isspace c = true) s.
Proof.
  unfold parse_ingredients.
  rewrite omap_nil, <- split_on_chars.
  apply Forall_iff. intros f. rewrite <- strip_nil.
  destruct (strip f); split; congruence.
Qed.

(** The ingredients of a query string are stripped, not empty and hold no
    comma; there are none exactly when the string is made of commas and
    whitespace only. *)
Theorem parse_ingredients_clean (s : str) :
  Forall (fun ing => ing <> [] /\ strip ing = ing /\
                     Forall (fun c => c <> comma) ing)
         (parse_ingredients s) /\
  (parse_ingredients s = [] <->
   Forall (fun c => c = comma \/ isspace c = true) s).
Proof.
  split; [apply parse_ingredients_Forall|apply parse_ingredients_nil].
Qed.

Section Facts.
Variable Score : Type.
Variable score_ltb : Score -> Score -> bool.
Variable at_least_half : Score -> bool.
Variable BM25 : Type.
Variable BM25Okapi : list (list str) -> result BM25.
Variable get_scores : BM25 -> list str -> list Score.
Variable lemmatize : str -> str.
Variable normalizer : TextNormalizer.t.

(** On recipes that all have a score the filter raises nothing and keeps
    those whose score passes, in order. *)
Lemma filter_low_scores_ok (w : world Score) (ls : list nat) :
  Forall (fun l => exists r s,
            heap w !! l = Some r /\ Recipe.score r = Some s) ls ->
  filter_low_scores at_least_half w ls =
  Ok (filter (fun l => Is_true (scored_at_least_half at_least_half w l)) ls).
Proof.
  induction 1 as [|l ls (r & s & Hl & Hs) _ IH]; [reflexivity|].
  cbn [filter_low_scores]. unfold deref. rewrite Hl. cbn [of_option bind].
  rewrite Hs, IH. cbn [bind]. rewrite filter_cons.
  assert (Hp : scored_at_least_half at_least_half w l = at_least_half s).
  { unfold scored_at_least_half. rewrite Hl, Hs. reflexivity. }
  rewrite Hp. destruct (at_least_half s); reflexivity.
Qed.

(** A search handler answers with an [HTTPException] only for a request
    without ingredients, whatever the index: [GET /recipes] exactly when
    the query string is made of commas and whitespace, [POST /suggest]
    exactly when the list is empty; the status is 400 and the world is
    left as it is. *)
Theorem no_ingredients_is_400 (s : str) (ingredients : list str) (limit : Z)
    (generated : list nat) (self : t BM25) (w : world Score) :
  (forall code w',
     search_recipes score_ltb at_least_half get_scores lemmatize normalizer
       s limit generated self w = Ok (HTTPException code, w') <->
     Forall (fun c => c = comma \/ isspace c = true) s /\
     code = 400 /\ w' = w) /\
  (forall code w',
     suggest_recipes score_ltb at_least_half get_scores lemmatize normalizer
       ingredients limit generated self w = Ok (HTTPException code, w') <->
     ingredients = [] /\ code = 400 /\ w' = w).
Proof.
  assert (Hrespond : forall ings code w',
            respond score_ltb at_least_half get_scores lemmatize normalizer
              ings limit generated self w <> Ok (HTTPException code, w')).
  { intros ings code w'. unfold respond.
    destruct generated; [|discriminate].
    destruct (search _ _ _ _ _ _ _ _) as [[found wf]|]; [|discriminate].
    cbn [bind].
    destruct (filter_low_scores _ _ _); discriminate. }
  split; intros code w'.
  - unfold search_recipes. rewrite <- parse_ingredients_nil.
    destruct (parse_ingredients s) as [|ing ings].
    + split; [intros [= <- <-]; auto|intros (_ & -> & ->); reflexivity].
    + split; [intros H; destruct (Hrespond _ _ _ H)|intros [[=] _]].
  - unfold suggest_recipes. destruct ingredients as [|ing ings].
    + split; [intros [= <- <-]; auto|intros (_ & -> & ->); reflexivity].
    + split; [intros H; destruct (Hrespond _ _ _ H)|intros [[=] _]].
Qed.

Hypothesis get_scores_length :
  forall corpus index query,
    BM25Okapi corpus = Ok index ->
    length (get_scores index query) = length corpus.

(** Every recipe that [search] returns on a constructed index has a
    score. *)
Lemma search_results_scored (base : nat) (news : list (Recipe.t Score))
    (self : t BM25) (w w' : world Score) (ingredients : list str) (k : Z)
    (results : list nat) :
  built BM25Okapi base news self w ->
  search score_ltb get_scores lemmatize normalizer self ingredients k w =
    Ok (results, w') ->
  Forall (fun l => exists r s,
            heap w' !! l = Some r /\ Recipe.score r = Some s) results.
Proof.
  intros Hb Hsearch.
  destruct (search_hits Score score_ltb BM25 BM25Okapi get_scores lemmatize
              normalizer get_scores_length _ _ _ _ _ _ _ _ Hb Hsearch)
    as (index & hits & _ & _ & _ & Hall).
  clear Hsearch.
  induction Hall as [|l' hit results hits (l & r & _ & _ & Hl' & _) _ IH];
    [constructor|]. constructor; [|exact IH].
  exists (Recipe.set_score r hit.2), hit.2. split; [exact Hl'|reflexivity].
Qed.

(** On a constructed index the part behind the ingredients never raises:
    recipes of the generator are returned as they are; otherwise the
    response holds the results of the local search whose score passes
    the filter, in the order of the search. *)
Lemma respond_ok (base : nat) (news : list (Recipe.t Score))
    (self : t BM25) (w : world Score) (ingredients : list str) (limit : Z)
    (generated : list nat) :
  built BM25Okapi base news self w ->
  exists found w',
    search score_ltb get_scores lemmatize normalizer self ingredients
      limit w = Ok (found, w') /\
    respond score_ltb at_least_half get_scores lemmatize normalizer
      ingredients limit generated self w =
    match generated with
    | _ :: _ =>
        Ok (Response (Main.Build generated ingredients (length generated)),
            w)
    | [] =>
        let kept :=
          filter (fun l => Is_true (scored_at_least_half at_least_half w' l))
                 found in
        Ok (Response (Main.Build kept ingredients (length kept)), w')
    end.
Proof.
  intros Hb.
  destruct (search_ok Score score_ltb BM25 BM25Okapi get_scores lemmatize
              normalizer get_scores_length _ _ self _ ingredients limit Hb)
    as (copies & Hs & _).
  eexists _, _. split; [exact Hs|].
  destruct generated as [|g gs]; [|reflexivity].
  unfold respond. rewrite Hs. cbn [bind].
  rewrite (filter_low_scores_ok _ _
             (search_results_scored _ _ _ _ _ _ _ _ Hb Hs)).
  reflexivity.
Qed.

(** [GET /recipes] on a constructed index, after any searches, with a
    query string that holds an ingredient: the handler raises nothing and
    answers with the parsed ingredients and a count that is the number of
    its recipes; these are the recipes of the generator if there are any,
    and otherwise the results of the local search for the parsed
    ingredients whose score is at least the threshold, in the order of
    the search. *)
Theorem search_recipes_responds (source : option (list row))
    (w0 w1 w : world Score) (self : t BM25)
    (calls : list (list str * Z)) (s : str) (limit : Z)
    (generated : list nat) :
  __init__ BM25Okapi lemmatize normalizer source w0 = Ok (self, w1) ->
  run_searches score_ltb get_scores lemmatize normalizer self calls w1 =
    Ok w ->
  parse_ingredients s <> [] ->
  exists found wf out w',
    search score_ltb get_scores lemmatize normalizer self
      (parse_ingredients s) limit w = Ok (found, wf) /\
    search_recipes score_ltb at_least_half get_scores lemmatize normalizer
      s limit generated self w = Ok (Response out, w') /\
    query_ingredients out = parse_ingredients s /\
    total_results out = length (Main.recipes out) /\
    (generated <> [] -> Main.recipes out = generated /\ w' = w) /\
    (generated = [] ->
     Main.recipes out =
       filter (fun l => Is_true (scored_at_least_half at_least_half wf l))
              found /\
     w' = wf).
Proof.
  intros Hinit Hrun Hne.
  destruct (init_then_searches Score score_ltb BM25 BM25Okapi get_scores
              lemmatize normalizer get_scores_length _ _ _ _ calls Hinit)
    as (rows & extra & _ & _ & _ & Hrun' & Hb).
  rewrite Hrun in Hrun'. injection Hrun' as Ew. rewrite <- Ew in Hb.
  unfold search_recipes.
  destruct (parse_ingredients s) as [|ing ings]; [congruence|].
  destruct (respond_ok _ _ _ _ (ing :: ings) limit generated Hb)
    as (found & wf & Hs & Hr).
  exists found, wf. rewrite Hr.
  destruct generated as [|g gs].
  - eexists _, _. split; [exact Hs|]. split; [reflexivity|].
    cbn [query_ingredients total_results Main.recipes].
    split; [reflexivity|]. split; [reflexivity|].
    split; [congruence|]. intros _. split; reflexivity.
  - eexists _, _. split; [exact Hs|]. split; [reflexivity|].
    cbn [query_ingredients total_results Main.recipes].
    split; [reflexivity|]. split; [reflexivity|].
    split; [intros _; split; reflexivity|discriminate].
Qed.

(** [POST /suggest] with a list of ingredients that is not empty, on a
    constructed index: as [GET /recipes], the ingredients taken as they
    are sent. *)
Theorem suggest_recipes_responds (source : option (list row))
    (w0 w1 w : world Score) (self : t BM25)
    (calls : list (list str * Z)) (ingredients : list str) (max_results : Z)
    (generated : list nat) :
  __init__ BM25Okapi lemmatize normalizer source w0 = Ok (self, w1) ->
  run_searches score_ltb get_scores lemmatize normalizer self calls w1 =
    Ok w ->
  ingredients <> [] ->
  exists found wf out w',
    search score_ltb get_scores lemmatize normalizer self
      ingredients max_results w = Ok (found, wf) /\
    suggest_recipes score_ltb at_least_half get_scores lemmatize normalizer
      ingredients max_results generated self w = Ok (Response out, w') /\
    query_ingredients out = ingredients /\
    total_results out = length (Main.recipes out) /\
    (generated <> [] -> Main.recipes out = generated /\ w' = w) /\
    (generated = [] ->
     Main.recipes out =
       filter (fun l => Is_true (scored_at_least_half at_least_half wf l))
              found /\
     w' = wf).
Proof.
  intros Hinit Hrun Hne.
  destruct (init_then_searches Score score_ltb BM25 BM25Okapi get_scores
              lemmatize normalizer get_scores_length _ _ _ _ calls Hinit)
    as (rows & extra & _ & _ & _ & Hrun' & Hb).
  rewrite Hrun in Hrun'. injection Hrun' as Ew. rewrite <- Ew in Hb.
  unfold suggest_recipes.
  destruct ingredients as [|ing ings]; [congruence|].
  destruct (respond_ok _ _ _ _ (ing :: ings) max_results generated Hb)
    as (found & wf & Hs & Hr).
  exists found, wf. rewrite Hr.
  destruct generated as [|g gs].
  - eexists _, _. split; [exact Hs|]. split; [reflexivity|].
    cbn [query_ingredients total_results Main.recipes].
    split; [reflexivity|]. split; [reflexivity|].
    split; [congruence|]. intros _. split; reflexivity.
  - eexists _, _. split; [exact Hs|]. split; [reflexivity|].
    cbn [query_ingredients total_results Main.recipes].
    split; [reflexivity|]. split; [reflexivity|].
    split; [intros _; split; reflexivity|discriminate].
Qed.

(** [GET /recipes/{recipe_id}] on a constructed index, after any
    searches: the handler raises nothing; it answers 404 exactly when no
    stored recipe has the id, and otherwise with the first stored recipe
    of that id. *)
Theorem get_recipe_found_or_404 (source : option (list row))
    (w0 w1 w : world Score) (self : t BM25)
    (calls : list (list str * Z)) (recipe_id : Z) :
  __init__ BM25Okapi lemmatize normalizer source w0 = Ok (self, w1) ->
  run_searches score_ltb get_scores lemmatize normalizer self calls w1 =
    Ok w ->
  ((recipe_id ∉ map Recipe.id (stored self w)) /\
   get_recipe recipe_id self w = Ok (HTTPException 404)) \/
  (exists i l r,
     get_recipe recipe_id self w = Ok (Response l) /\
     RecipeIndexer.recipes self !! i = Some l /\
     heap w !! l = Some r /\ Recipe.id r = recipe_id /\
     forall j r', j < i -> stored self w !! j = Some r' ->
                  Recipe.id r' <> recipe_id).
Proof.
  intros Hinit Hrun.
  destruct (init_then_searches Score score_ltb BM25 BM25Okapi get_scores
              lemmatize normalizer get_scores_length _ _ _ _ calls Hinit)
    as (rows & extra & _ & _ & _ & Hrun' & Hb).
  rewrite Hrun in Hrun'. injection Hrun' as Ew. rewrite <- Ew in Hb.
  rewrite (built_stored _ _ _ _ _ _ _ Hb).
  set (news := accepted Score rows) in *.
  pose proof Hb as (Hr & (pre & post & Hh & Hp) & _).
  unfold get_recipe, get_recipe_by_id. rewrite Hr, <- Hp.
  rewrite (find_by_id_ok _ pre news post _ recipe_id Hh).
  destruct (list_find _ news) as [[i x]|] eqn:Ef; cbn [fmap option_fmap
    option_map bind fst].
  - right. apply list_find_Some in Ef as (Hi & Hid & Hmin).
    apply lookup_lt_Some in Hi as Hlt.
    destruct (built_lookup _ _ _ _ _ _ _ i Hb Hlt) as [Hrec Hheap].
    exists i, (length pre + i), x.
    split; [reflexivity|]. rewrite Hp. split; [rewrite <- Hr; exact Hrec|].
    split; [rewrite Hheap; exact Hi|]. split; [exact Hid|].
    intros j r' Hj Hr'. exact (Hmin j r' Hr' Hj).
  - left. split; [|reflexivity].
    apply list_find_None in Ef. rewrite Forall_forall in Ef.
    intros Hin. apply list_elem_of_fmap in Hin as (r & -> & Hin).
    exact (Ef r Hin eq_refl).
Qed.

End Facts.
End MainFacts.

(** ** The handlers at concrete inputs *)

Module MainExamples.
Import PyStr RecipeIndexer Main MainFacts.

(** The query of the example as a query string, no generator. *)
Lemma search_recipes_responds_sample :
  exists found wf out w',
    search Z.ltb Sample.get_scores Sample.lemmatize Sample.normalizer
      Sample.loaded.1 (parse_ingredients (py " chicken, ,rice"))
      5 Sample.loaded.2 = Ok (found, wf) /\
    search_recipes Z.ltb Sample.at_least_half Sample.get_scores Sample.lemmatize
      Sample.normalizer (py " chicken, ,rice") 5 [] Sample.loaded.1
      Sample.loaded.2 = Ok (Response out, w') /\
    query_ingredients out = parse_ingredients (py " chicken, ,rice") /\
    total_results out = length (Main.recipes out) /\
    (@nil nat <> [] -> Main.recipes out = [] /\ w' = Sample.loaded.2) /\
    (@nil nat = [] ->
     Main.recipes out =
       filter (fun l => Is_true (scored_at_least_half Sample.at_least_half wf l))
              found /\
     w' = wf).
Proof.
  apply (search_recipes_responds Z Z.ltb Sample.at_least_half Sample.BM25
           Sample.BM25Okapi Sample.get_scores Sample.lemmatize
           Sample.normalizer IndexExamples.sample_scores_length
           (Some [Sample.chicken_rice; Sample.tomato_pasta])
           Sample.empty_world Sample.loaded.2 Sample.loaded.2
           Sample.loaded.1 []).
  - exact IndexExamples.sample_loaded.
  - reflexivity.
  - vm_compute. discriminate.
Defined.

(** The same ingredients sent as a list, with one generated recipe. *)
Lemma suggest_recipes_responds_sample :
  exists found wf out w',
    search Z.ltb Sample.get_scores Sample.lemmatize Sample.normalizer
      Sample.loaded.1 [py "chicken"; py "rice"] 5 Sample.loaded.2 =
      Ok (found, wf) /\
    suggest_recipes Z.ltb Sample.at_least_half Sample.get_scores Sample.lemmatize
      Sample.normalizer [py "chicken"; py "rice"] 5 [7] Sample.loaded.1
      Sample.loaded.2 = Ok (Response out, w') /\
    query_ingredients out = [py "chicken"; py "rice"] /\
    total_results out = length (Main.recipes out) /\
    ([7] <> [] -> Main.recipes out = [7] /\ w' = Sample.loaded.2) /\
    ([7] = [] ->
     Main.recipes out =
       filter (fun l => Is_true (scored_at_least_half Sample.at_least_half wf l))
              found /\
     w' = wf).
Proof.
  apply (suggest_recipes_responds Z Z.ltb Sample.at_least_half Sample.BM25
           Sample.BM25Okapi Sample.get_scores Sample.lemmatize
           Sample.normalizer IndexExamples.sample_scores_length
           (Some [Sample.chicken_rice; Sample.tomato_pasta])
           Sample.empty_world Sample.loaded.2 Sample.loaded.2
           Sample.loaded.1 []).
  - exact IndexExamples.sample_loaded.
  - reflexivity.
  - discriminate.
Defined.

(** The id of the second recipe of the example. *)
Lemma get_recipe_found_or_404_sample :
  ((2%Z ∉ map Recipe.id (stored Sample.loaded.1 Sample.loaded.2)) /\
   get_recipe 2 Sample.loaded.1 Sample.loaded.2 = Ok (HTTPException 404)) \/
  (exists i l r,
     get_recipe 2 Sample.loaded.1 Sample.loaded.2 = Ok (Response l) /\
     RecipeIndexer.recipes Sample.loaded.1 !! i = Some l /\
     heap Sample.loaded.2 !! l = Some r /\ Recipe.id r = 2%Z /\
     forall j r', j < i ->
                  stored Sample.loaded.1 Sample.loaded.2 !! j = Some r' ->
                  Recipe.id r' <> 2%Z).
Proof.
  apply (get_recipe_found_or_404 Z Z.ltb Sample.BM25 Sample.BM25Okapi
           Sample.get_scores Sample.lemmatize Sample.normalizer
           IndexExamples.sample_scores_length
           (Some [Sample.chicken_rice; Sample.tomato_pasta])
           Sample.empty_world Sample.loaded.2 Sample.loaded.2
           Sample.loaded.1 []).
  - exact IndexExamples.sample_loaded.
  - reflexivity.
Defined.

End MainExamples.
